(** * Automated-Data-Collection: the notebook programs, embedded and verified

    The executable code of the repository is two Jupyter notebooks written
    against the PyJEM vendor library:

    - the emission logger ([emission_log] and the driver cell that reads
      [count] and [interval_time] from the keyboard), and
    - the magnification tutorial (the [UpSelector] loop and [test4]).

    Both are embedded here as state-passing programs over an explicit
    world (global namespace, keyboard, screen, files, devices, clock); an
    uncaught Python exception is a [Raise] outcome which keeps the effects
    performed before it. *)

From stdpp Require Import gmap strings list pretty.
From Stdlib Require Import ZArith Lia Ascii.

Local Open Scope Z_scope.

(** ** The fragment of the Python runtime the notebooks use *)

Module Py.

Inductive exn :=
| NameError (name : string)
| ValueError (msg : string)
| TypeError (msg : string)
| OverflowError (msg : string)
| EOFError.

(** The class of an exception, by name. *)
Definition class_of (e : exn) : string :=
  match e with
  | NameError _ => "NameError"
  | ValueError _ => "ValueError"
  | TypeError _ => "TypeError"
  | OverflowError _ => "OverflowError"
  | EOFError => "EOFError"
  end.

(** Values that the notebook variables [count], [interval_time] and
    [sleeptime] can hold. [PyModule] is there because the driver cell
    passes the module [time] as [sleeptime]. *)
Inductive value :=
| PyNone
| PyInt (z : Z)
| PyStr (s : string)
| PyModule (name : string).

Inductive outcome (A : Type) :=
| Return (a : A)
| Raise (e : exn).
Arguments Return {A} a.
Arguments Raise {A} e.

(** A statement run in world [W]: it ends normally or raises, and in
    both cases leaves a world behind. *)
Definition run (W A : Type) : Type := W → outcome A * W.

#[global] Instance run_ret {W} : MRet (run W) :=
  λ A a w, (Return a, w).

#[global] Instance run_bind {W} : MBind (run W) :=
  λ A B k c w,
    match c w with
    | (Return a, w') => k a w'
    | (Raise e, w') => (Raise e, w')
    end.

Definition raise {W A} (e : exn) : run W A := λ w, (Raise e, w).

Definition modify {W} (f : W → W) : run W unit := λ w, (Return (), f w).

(** [for i in range(n): body], threading the loop-carried locals [s];
    [i] counts up from [start]. *)
Fixpoint for_from {W S} (start : Z) (n : nat)
    (body : Z → S → run W S) (s : S) : run W S :=
  match n with
  | O => mret s
  | S n' => s' ← body start s; for_from (start + 1) n' body s'
  end.

(** [range(v)]: the number of iterations, or [TypeError] when [v] is
    not an integer. A negative bound gives an empty range. *)
Definition range {W} (v : value) : run W nat :=
  match v with
  | PyInt z => mret (Z.to_nat z)
  | _ => raise (TypeError "object cannot be interpreted as an integer")
  end.

(** [a == b] on the values above. *)
Definition eq (a b : value) : bool :=
  match a, b with
  | PyNone, PyNone => true
  | PyInt x, PyInt y => bool_decide (x = y)
  | PyStr x, PyStr y => bool_decide (x = y)
  | PyModule x, PyModule y => bool_decide (x = y)
  | _, _ => false
  end.

Definition newline : string := String (ascii_of_nat 10) "".

(** The name of the type of a value, as error messages show it. *)
Definition type_name (v : value) : string :=
  match v with
  | PyNone => "NoneType"
  | PyInt _ => "int"
  | PyStr _ => "str"
  | PyModule _ => "module"
  end.

(** *** [int(s)] for a string [s]

    This is [int] of Python 3.5, the version both notebooks record (its
    decimal digits are those of Unicode 8.0; later versions take the
    digits added to Unicode since, and underscores between digits). A
    string of the model holds the UTF-8 bytes of a text. A text with a
    character outside ASCII is first rewritten: each white space outside
    ASCII becomes a blank, each decimal digit outside ASCII becomes the
    ASCII digit of its value, and the first other character outside ASCII
    ends the text with a question mark. Then surrounding white space
    (blank, tab, line feed, vertical tab, form feed, carriage return) is
    dropped, one sign is allowed, and at least one decimal digit must
    follow; anything else is a [ValueError]. *)

Definition byte (c : ascii) : Z := Z.of_nat (nat_of_ascii c).

Definition is_ascii (c : ascii) : bool := bool_decide (byte c < 128).

(** The payload of a continuation byte of UTF-8. *)
Definition continuation (c : ascii) : option Z :=
  if bool_decide (128 ≤ byte c < 192) then Some (byte c - 128) else None.

(** A character number that takes a sequence of its length (at least
    [least]) and is no surrogate. *)
Definition scalar (least ch : Z) : option Z :=
  if bool_decide (least ≤ ch ≤ 0x10FFFF ∧ ¬ (0xD800 ≤ ch ≤ 0xDFFF)) then Some ch
  else None.

(** The characters of a text, by number; [None] stands for bytes that
    are not the UTF-8 form of a character. *)
Fixpoint code_points (l : list ascii) : list (option Z) :=
  match l with
  | [] => []
  | c :: l1 =>
      if bool_decide (byte c < 128) then Some (byte c) :: code_points l1
      else if bool_decide (192 ≤ byte c < 224) then
        match l1 with
        | c1 :: l2 =>
            match continuation c1 with
            | Some x1 => scalar 0x80 ((byte c - 192) * 64 + x1) :: code_points l2
            | None => None :: code_points l1
            end
        | _ => None :: code_points l1
        end
      else if bool_decide (224 ≤ byte c < 240) then
        match l1 with
        | c1 :: c2 :: l3 =>
            match continuation c1, continuation c2 with
            | Some x1, Some x2 =>
                scalar 0x800 (((byte c - 224) * 64 + x1) * 64 + x2) :: code_points l3
            | _, _ => None :: code_points l1
            end
        | _ => None :: code_points l1
        end
      else if bool_decide (240 ≤ byte c < 248) then
        match l1 with
        | c1 :: c2 :: c3 :: l4 =>
            match continuation c1, continuation c2, continuation c3 with
            | Some x1, Some x2, Some x3 =>
                scalar 0x10000 ((((byte c - 240) * 64 + x1) * 64 + x2) * 64 + x3)
                  :: code_points l4
            | _, _, _ => None :: code_points l1
            end
        | _ => None :: code_points l1
        end
      else None :: code_points l1
  end.

(** White space outside ASCII. *)
Definition unicode_spaces : list Z :=
  [ 0x85; 0xA0; 0x1680; 0x2000; 0x2001; 0x2002; 0x2003; 0x2004; 0x2005;
    0x2006; 0x2007; 0x2008; 0x2009; 0x200A; 0x2028; 0x2029; 0x202F; 0x205F;
    0x3000 ].

(** The decimal digits outside ASCII (Unicode 8.0) come in runs of ten,
    from the digit zero of each script up; these are the zeros. *)
Definition decimal_zeros : list Z :=
  [ 0x660; 0x6F0; 0x7C0; 0x966; 0x9E6; 0xA66; 0xAE6; 0xB66;
    0xBE6; 0xC66; 0xCE6; 0xD66; 0xDE6; 0xE50; 0xED0; 0xF20;
    0x1040; 0x1090; 0x17E0; 0x1810; 0x1946; 0x19D0; 0x1A80; 0x1A90;
    0x1B50; 0x1BB0; 0x1C40; 0x1C50; 0xA620; 0xA8D0; 0xA900; 0xA9D0;
    0xA9F0; 0xAA50; 0xABF0; 0xFF10; 0x104A0; 0x11066; 0x110F0; 0x11136;
    0x111D0; 0x112F0; 0x114D0; 0x11650; 0x116C0; 0x11730; 0x118E0; 0x16A60;
    0x16B50; 0x1D7CE; 0x1D7D8; 0x1D7E2; 0x1D7EC; 0x1D7F6 ].

Definition decimal (ch : Z) : option Z :=
  (λ zero, ch - zero)
    <$> find (λ zero, bool_decide (zero ≤ ch < zero + 10)) decimal_zeros.

(** The rewriting of a text that is not all ASCII. *)
Fixpoint to_ascii (l : list (option Z)) : list ascii :=
  match l with
  | [] => []
  | Some ch :: l' =>
      if bool_decide (ch < 127) then ascii_of_nat (Z.to_nat ch) :: to_ascii l'
      else if bool_decide (ch ∈ unicode_spaces) then " "%char :: to_ascii l'
      else match decimal ch with
           | Some d => ascii_of_nat (Z.to_nat (48 + d)) :: to_ascii l'
           | None => ["?"%char]
           end
  | None :: _ => ["?"%char]
  end.

Definition ascii_text (l : list ascii) : list ascii :=
  if forallb is_ascii l then l else to_ascii (code_points l).

Definition is_space (c : ascii) : bool :=
  let n := nat_of_ascii c in
  bool_decide (n = 32 ∨ (9 ≤ n ≤ 13))%nat.

Definition digit_of (c : ascii) : option Z :=
  let n := nat_of_ascii c in
  if bool_decide (48 ≤ n ≤ 57)%nat then Some (Z.of_nat n - 48) else None.

Fixpoint lstrip (l : list ascii) : list ascii :=
  match l with
  | c :: l' => if is_space c then lstrip l' else l
  | [] => []
  end.

Definition strip (l : list ascii) : list ascii :=
  reverse (lstrip (reverse (lstrip l))).

Fixpoint digits_value (acc : Z) (l : list ascii) : option Z :=
  match l with
  | [] => Some acc
  | c :: l' =>
      match digit_of c with
      | Some d => digits_value (10 * acc + d) l'
      | None => None
      end
  end.

Definition invalid_literal (s : string) : exn :=
  ValueError ("invalid literal for int() with base 10: '" +:+ s +:+ "'").

Definition int (s : string) : outcome Z :=
  let body := strip (ascii_text (String.list_ascii_of_string s)) in
  let '(sign, ds) :=
    match body with
    | "-"%char :: r => (-1, r)
    | "+"%char :: r => (1, r)
    | _ => (1, body)
    end in
  match ds with
  | [] => Raise (invalid_literal s)
  | _ =>
      match digits_value 0 ds with
      | Some n => Return (sign * n)
      | None => Raise (invalid_literal s)
      end
  end.

(** [str(z)] and [repr(z)] of an integer. *)
Definition str_int (z : Z) : string := pretty z.

End Py.

Import Py.

(** ** The emission logger notebook *)

Module Logger.

(** A reading of the gun's emission current. The program never
    computes with the float: it only prints it with [str] and plots it,
    so a reading is kept as the text [str] gives for it ("0.0" in the
    recorded run). *)
Record emission := Emission { emission_str : string }.

Record datetime := Datetime {
  year : nat; month : nat; day : nat;
  hour : nat; minute : nat; second : nat
}.

Inductive plt_call :=
| Plot (x : list Z) (y : list emission) (fmt : string)
| Xlabel (s : string)
| Ylabel (s : string)
| Title (s : string)
| Show.

(** Everything the notebook reads or changes.

    - [globals]: the notebook's global namespace, for the names assigned
      by the cells ([count], [interval_time]); the names bound by the
      import cell ([time], [datetime], [plt], [TEM3]) are taken as bound;
    - [stdin]: the lines the user will type; [stdout]: the chunks
      written to the screen, oldest first;
    - [files]: for each file that reads as text, the text it holds on
      disk, as the chunks that reached it since it was last truncated;
      [opened]: the handles open for writing;
    - [gun], [clock]: what the i-th read of the device and of the clock
      gives, with the number of reads made so far (both always answer);
    - [slept]: the completed [time.sleep] calls; [pyplot]: the calls
      made to matplotlib;
    - [pending]: for each file open for writing, the chunks written to
      its handle that are still in the handle's buffer; they reach the
      file when it is closed;
    - [garbled]: the files whose bytes do not decode as text, each with
      the rows a reader gets from it before the decoding error. *)
Record World := mkWorld {
  globals : gmap string value;
  stdin : list string;
  stdout : list string;
  files : gmap string (list string);
  opened : list string;
  gun : nat → emission;
  gun_reads : nat;
  clock : nat → datetime;
  clock_reads : nat;
  slept : list Z;
  pyplot : list plt_call;
  pending : gmap string (list string);
  garbled : gmap string (list string)
}.

Definition with_globals (f : gmap string value → gmap string value) (w : World) :=
  mkWorld (f (globals w)) (stdin w) (stdout w) (files w) (opened w)
          (gun w) (gun_reads w) (clock w) (clock_reads w) (slept w) (pyplot w)
          (pending w) (garbled w).
Definition with_stdin (f : list string → list string) (w : World) :=
  mkWorld (globals w) (f (stdin w)) (stdout w) (files w) (opened w)
          (gun w) (gun_reads w) (clock w) (clock_reads w) (slept w) (pyplot w)
          (pending w) (garbled w).
Definition with_stdout (f : list string → list string) (w : World) :=
  mkWorld (globals w) (stdin w) (f (stdout w)) (files w) (opened w)
          (gun w) (gun_reads w) (clock w) (clock_reads w) (slept w) (pyplot w)
          (pending w) (garbled w).
Definition with_files (f : gmap string (list string) → gmap string (list string)) (w : World) :=
  mkWorld (globals w) (stdin w) (stdout w) (f (files w)) (opened w)
          (gun w) (gun_reads w) (clock w) (clock_reads w) (slept w) (pyplot w)
          (pending w) (garbled w).
Definition with_opened (f : list string → list string) (w : World) :=
  mkWorld (globals w) (stdin w) (stdout w) (files w) (f (opened w))
          (gun w) (gun_reads w) (clock w) (clock_reads w) (slept w) (pyplot w)
          (pending w) (garbled w).
Definition with_gun_reads (f : nat → nat) (w : World) :=
  mkWorld (globals w) (stdin w) (stdout w) (files w) (opened w)
          (gun w) (f (gun_reads w)) (clock w) (clock_reads w) (slept w) (pyplot w)
          (pending w) (garbled w).
Definition with_clock_reads (f : nat → nat) (w : World) :=
  mkWorld (globals w) (stdin w) (stdout w) (files w) (opened w)
          (gun w) (gun_reads w) (clock w) (f (clock_reads w)) (slept w) (pyplot w)
          (pending w) (garbled w).
Definition with_slept (f : list Z → list Z) (w : World) :=
  mkWorld (globals w) (stdin w) (stdout w) (files w) (opened w)
          (gun w) (gun_reads w) (clock w) (clock_reads w) (f (slept w)) (pyplot w)
          (pending w) (garbled w).
Definition with_pending
    (f : gmap string (list string) → gmap string (list string)) (w : World) :=
  mkWorld (globals w) (stdin w) (stdout w) (files w) (opened w)
          (gun w) (gun_reads w) (clock w) (clock_reads w) (slept w) (pyplot w)
          (f (pending w)) (garbled w).
Definition with_garbled
    (f : gmap string (list string) → gmap string (list string)) (w : World) :=
  mkWorld (globals w) (stdin w) (stdout w) (files w) (opened w)
          (gun w) (gun_reads w) (clock w) (clock_reads w) (slept w) (pyplot w)
          (pending w) (f (garbled w)).
Definition with_pyplot (f : list plt_call → list plt_call) (w : World) :=
  mkWorld (globals w) (stdin w) (stdout w) (files w) (opened w)
          (gun w) (gun_reads w) (clock w) (clock_reads w) (slept w) (f (pyplot w))
          (pending w) (garbled w).

(** *** Built-ins and library calls *)

(** [print(s)] *)
Definition print (s : string) : run World unit :=
  modify (with_stdout (λ out, out ++ [s +:+ newline])).

(** [input(prompt)]: the prompt goes to the screen, then one line is
    taken from the keyboard; end of input is [EOFError]. *)
Definition input (prompt : string) : run World string :=
  λ w, let w := with_stdout (λ out, out ++ [prompt]) w in
       match stdin w with
       | line :: rest => (Return line, with_stdin (λ _, rest) w)
       | [] => (Raise EOFError, w)
       end.

(** [int(s)], as a statement. *)
Definition int_of (s : string) : run World Z := λ w, (Py.int s, w).

(** Reading and assigning a global name. *)
Definition load_global (name : string) : run World value :=
  λ w, match globals w !! name with
       | Some v => (Return v, w)
       | None => (Raise (NameError name), w)
       end.

Definition store_global (name : string) (v : value) : run World unit :=
  modify (with_globals (insert name v)).

(** [open(name, "w")]: the file is created or truncated at once (so it
    is an empty text from now on) and gets a handle with an empty buffer;
    the handle is the name. A handle that an interrupted call left open
    on the same file is followed no further: the program has no name for
    it any more. *)
Definition open_w (name : string) : run World string :=
  λ w, (Return name,
        with_opened (cons name)
          (with_pending (insert name [])
             (with_garbled (delete name)
                (with_files (insert name []) w)))).

(** [file.write(data)]: the text goes to the buffer of the handle; on a
    handle that is not open it is a [ValueError]. (The stream also
    empties a buffer of more than 8192 bytes into the file by itself;
    that moves pending chunks to the file earlier, in the same order, and
    is not modelled.) *)
Definition file_write (file data : string) : run World unit :=
  λ w, match pending w !! file with
       | Some _ =>
           (Return (), with_pending (alter (λ chunks, chunks ++ [data]) file) w)
       | None => (Raise (ValueError "I/O operation on closed file."), w)
       end.

Fixpoint remove_first (name : string) (l : list string) : list string :=
  match l with
  | [] => []
  | h :: t => if bool_decide (h = name) then t else h :: remove_first name t
  end.

(** [file.close()]: the buffer is emptied into the file and the handle
    goes; closing a handle that is not open does nothing. *)
Definition file_close (file : string) : run World unit :=
  λ w, match pending w !! file with
       | Some chunks =>
           (Return (),
            with_opened (remove_first file)
              (with_pending (delete file)
                 (with_files (alter (λ text, text ++ chunks) file) w)))
       | None => (Return (), w)
       end.

(** [TEM3.GUN3().GetEmissionCurrentValue()] *)
Definition GetEmissionCurrentValue : run World emission :=
  λ w, (Return (gun w (gun_reads w)), with_gun_reads S w).

(** [datetime.datetime.today()] *)
Definition today : run World datetime :=
  λ w, (Return (clock w (clock_reads w)), with_clock_reads S w).

(** The largest number of seconds the C time type of [time.sleep] holds
    (2^63 - 1 nanoseconds). *)
Definition time_t_max : Z := 9223372036.

(** The longest sleep, in seconds, [time.sleep] takes on Windows, the
    system PyJEM and these notebooks run on: 2^32 - 1 milliseconds. *)
Definition sleep_limit : Z := 4294967.

(** [time.sleep(v)] for the values above, in the order of its checks: a
    value that is not a number is a [TypeError]; a number of seconds
    outside the C time range is an [OverflowError]; a negative length is a
    [ValueError]; a length above what the system call takes is an
    [OverflowError]; any other length is slept. *)
Definition time_sleep (v : value) : run World unit :=
  match v with
  | PyInt z =>
      if bool_decide (z < - time_t_max ∨ time_t_max < z) then
        raise (OverflowError "timestamp too large to convert to C _PyTime_t")
      else if bool_decide (z < 0) then
        raise (ValueError "sleep length must be non-negative")
      else if bool_decide (sleep_limit < z) then
        raise (OverflowError "sleep length is too large")
      else modify (with_slept (λ l, l ++ [z]))
  | _ => raise (TypeError ("an integer is required (got type " +:+ type_name v +:+ ")"))
  end.

Definition plt (c : plt_call) : run World unit :=
  modify (with_pyplot (λ l, l ++ [c])).

(** [date.strftime(fmt)] for the directives the notebook uses: the year
    in full, the other fields on two digits. *)
Definition pad2 (n : nat) : string :=
  if bool_decide (n < 10)%nat then "0" +:+ pretty n else pretty n.

Definition directive (d : datetime) (c : ascii) : string :=
  if bool_decide (c = "Y"%char) then pretty (year d)
  else if bool_decide (c = "m"%char) then pad2 (month d)
  else if bool_decide (c = "d"%char) then pad2 (day d)
  else if bool_decide (c = "H"%char) then pad2 (hour d)
  else if bool_decide (c = "M"%char) then pad2 (minute d)
  else if bool_decide (c = "S"%char) then pad2 (second d)
  else String "%"%char (String c "").

Fixpoint strftime (d : datetime) (fmt : string) : string :=
  match fmt with
  | "" => ""
  | String c rest =>
      match rest with
      | String c' rest' =>
          if bool_decide (c = "%"%char) then directive d c' +:+ strftime d rest'
          else String c (strftime d rest)
      | "" => String c ""
      end
  end.

(** *** [emission_log] *)

(** One turn of the [for] loop; [x] and [y] are the two lists the loop
    appends to. The sleep is for the global [interval_time], which is
    looked up at every turn. *)
Definition log_step (file : string) (i : Z) (xy : list Z * list emission)
    : run World (list Z * list emission) :=
  value ← GetEmissionCurrentValue;
  let x := xy.1 ++ [i] in
  let y := xy.2 ++ [value] in
  print ("Emission Value: " +:+ emission_str value);;
  date ← today;
  let write_data :=
    strftime date "%Y/%m/%d_%H:%M:%S " +:+ "EmissionValue: "
      +:+ emission_str value +:+ newline in
  file_write file write_data;;
  interval_time ← load_global "interval_time";
  time_sleep interval_time;;
  mret (x, y).

(** The function itself. Building the gun object, [TEM3.GUN3()], changes
    nothing in the world and is left out; [sleeptime] is a parameter the
    body never mentions. *)
Definition emission_log (count sleeptime : value) : run World value :=
  file ← open_w "log.txt";
  n ← range count;
  xy ← for_from 0 n (log_step file) ([], []);
  file_close file;;
  plt (Plot xy.1 xy.2 "-");;
  plt (Xlabel "Count");;
  plt (Ylabel "EmissionValue");;
  plt (Title "EmissionCurrentValue");;
  plt Show;;
  mret PyNone.

(** *** The driver cell *)

Definition driver : run World value :=
  s ← input "試行回数: ";
  n ← int_of s;
  store_global "count" (PyInt n);;
  count ← load_global "count";
  (if Py.eq count PyNone then
     print "Please set the number of trials.";;
     store_global "count" (PyInt 1)
   else mret ());;
  s ← input "Interval time: ";
  n ← int_of s;
  store_global "interval_time" (PyInt n);;
  interval_time ← load_global "interval_time";
  (if Py.eq interval_time PyNone then
     store_global "interval_time" (PyInt 1)
   else mret ());;
  count ← load_global "count";
  emission_log count (PyModule "time").

(** The driver cell with its two [if ... == None] statements deleted;
    [driver] is compared with it. *)
Definition driver_without_fallbacks : run World value :=
  s ← input "試行回数: ";
  n ← int_of s;
  store_global "count" (PyInt n);;
  s ← input "Interval time: ";
  n ← int_of s;
  store_global "interval_time" (PyInt n);;
  count ← load_global "count";
  emission_log count (PyModule "time").

(** *** Worlds to run the programs in *)

Definition idle_gun : nat → emission := λ _, Emission "0.0".

Definition wall_clock : nat → datetime :=
  λ i, Datetime 2017 5 12 16 16 (49 + i).

(** A world at the start of a session: the user will type [typed], the
    globals are [g], nothing was printed, written, read or plotted yet. *)
Definition fresh (typed : list string) (g : gmap string value) : World :=
  mkWorld g typed [] ∅ [] idle_gun 0 wall_clock 0 [] [] ∅ ∅.

End Logger.

(** ** The magnification tutorial notebook *)

Module Magnification.

(** What [eos.GetMagValue()] returns, a three-element list
    [[value, unit, label]]. *)
Record MagValue := Mag {
  mag_value : Z;
  mag_unit : string;
  mag_label : string
}.

(** The text [print] shows for it, for instance [[300, 'X', 'X300']]. *)
Definition repr (m : MagValue) : string :=
  "[" +:+ str_int (mag_value m) +:+ ", '" +:+ mag_unit m +:+ "', '"
      +:+ mag_label m +:+ "']".

(** The part of PyJEM's [TEM3.EOS3] class the notebook calls, with the
    signatures its help text documents: the three selector methods change
    the object and return nothing, [GetMagValue] returns the list. The
    class body is vendor code outside the notebooks; the programs below
    are verified against this interface, for every implementation of it
    whose methods return normally. *)
Class EOS3 (S : Type) := {
  SetSelector : Z → S → S;
  UpSelector : S → S;
  DownSelector : S → S;
  GetMagValue : S → MagValue
}.

Inductive call :=
| CallSetSelector (v : Z)
| CallUpSelector
| CallDownSelector
| CallGetMagValue.

#[global] Instance call_eq_dec : EqDecision call.
Proof. solve_decision. Defined.

(** The notebook's world: the global [eos] object, the calls made on it
    so far (oldest first) and the screen. *)
Record World (S : Type) := mkWorld {
  eos : S;
  calls : list call;
  stdout : list string
}.
Arguments mkWorld {S}.
Arguments eos {S}.
Arguments calls {S}.
Arguments stdout {S}.

Section Notebook.
Context {S : Type} `{EOS3 S}.

(** [eos.SetSelector(v)] *)
Definition eos_SetSelector (v : Z) : run (World S) unit :=
  modify (λ w, mkWorld (SetSelector v (eos w))
                       (calls w ++ [CallSetSelector v]) (stdout w)).

(** [eos.UpSelector()] *)
Definition eos_UpSelector : run (World S) unit :=
  modify (λ w, mkWorld (UpSelector (eos w))
                       (calls w ++ [CallUpSelector]) (stdout w)).

(** [eos.GetMagValue()] *)
Definition eos_GetMagValue : run (World S) MagValue :=
  λ w, (Return (GetMagValue (eos w)),
        mkWorld (eos w) (calls w ++ [CallGetMagValue]) (stdout w)).

(** [print(v)] for a magnification list [v]. *)
Definition print (v : MagValue) : run (World S) unit :=
  modify (λ w, mkWorld (eos w) (calls w) (stdout w ++ [repr v +:+ newline])).

(** The body shared by the loop of cell A3 and by [test4]. *)
Definition up_and_print (i : Z) (_ : unit) : run (World S) unit :=
  eos_UpSelector;;
  v ← eos_GetMagValue;
  print v.

(** Cell A3: [for i in range(10): ...] *)
Definition cell_A3 : run (World S) unit :=
  for_from 0 10 up_and_print ().

Definition test4 (loop : value) : run (World S) value :=
  n ← range loop;
  for_from 0 n up_and_print ();;
  mret PyNone.

(** How many [UpSelector] calls a world has seen. *)
Definition up_calls (w : World S) : nat :=
  length (filter (λ c, c = CallUpSelector) (calls w)).

(** The selector state [n] steps up from [s]. *)
Definition stepped_up (n : nat) (s : S) : S := Nat.iter n UpSelector s.

(** The lines [n] turns of the loop print when started in state [s]:
    the k-th is the magnification read after k+1 steps up. *)
Definition printed_rows (s : S) (n : nat) : list string :=
  (λ k, repr (GetMagValue (stepped_up (Datatypes.S k) s)) +:+ newline) <$> seq 0 n.

(** The calls [n] turns of the loop make. *)
Definition loop_calls (n : nat) : list call :=
  mjoin (replicate n [CallUpSelector; CallGetMagValue]).

End Notebook.

(** *** The recorded session

    The rows the notebook outputs show: selector 0 and 1 (cells A1 and
    A2), the ten rows printed by cell A3 after [SetSelector(1)], and the
    ten rows printed by [test4(10)]. *)
Definition rows_from_0 : list MagValue :=
  [ Mag 200 "X" "X200"; Mag 250 "X" "X250"; Mag 300 "X" "X300";
    Mag 400 "X" "X400"; Mag 500 "X" "X500"; Mag 600 "X" "X600";
    Mag 800 "X" "X800"; Mag 1000 "X" "X1000"; Mag 1200 "X" "X1200";
    Mag 1500 "X" "X1500"; Mag 2000 "X" "X2000"; Mag 2500 "X" "X2500" ].

Definition rows_test4 : list MagValue :=
  [ Mag 30000 "X" "X30k"; Mag 40000 "X" "X40k"; Mag 50000 "X" "X50k";
    Mag 60000 "X" "X60k"; Mag 80000 "X" "X80k"; Mag 100000 "X" "X100k";
    Mag 120000 "X" "X120k"; Mag 150000 "X" "X150k"; Mag 200000 "X" "X200k";
    Mag 250000 "X" "X250k" ].

(** A stand-in for the [eos] object that replays a list of rows: the
    state is a position in the list. It is what the examples run
    [test4] on; past the end of the rows it answers with an empty row,
    where PyJEM's own answer is not recorded. *)
Record replay := Replay { rows : list MagValue; position : nat }.

#[global] Instance replay_EOS3 : EOS3 replay := {
  SetSelector v r := Replay (rows r) (Z.to_nat v);
  UpSelector r := Replay (rows r) (Datatypes.S (position r));
  DownSelector r := Replay (rows r) (Nat.pred (position r));
  GetMagValue r := default (Mag 0 "" "") (rows r !! position r)
}.

Definition session (l : list MagValue) (start : nat) : World replay :=
  mkWorld (Replay l start) [] [].

(** The one row of the STEM tables that the output of [help(TEM3)]
    shows (the first row of [offlinedata['STEMAMAG']['MagList']]). *)
Definition row_STEMAMAG : MagValue := Mag 5000 "X" "x5000".

(** Whether the label of a row begins with its unit. *)
Definition label_begins_with_unit (m : MagValue) : bool :=
  String.prefix (mag_unit m) (mag_label m).

(** Strictly increasing first elements, as a check on a list of rows. *)
Fixpoint increasing (l : list MagValue) : bool :=
  match l with
  | a :: (b :: _) as t => bool_decide (mag_value a < mag_value b) && increasing t
  | _ => true
  end.

End Magnification.

(** ** What a run of the logger is expected to leave behind *)

Module LoggerSpec.
Import Logger.

(** The line [print] shows for a reading. *)
Definition shown_line (v : emission) : string :=
  "Emission Value: " +:+ emission_str v +:+ newline.

(** A time stamp, year/month/day_hour:minute:second. *)
Definition timestamp (d : datetime) : string :=
  pretty (year d) +:+ "/" +:+ pad2 (month d) +:+ "/" +:+ pad2 (day d)
    +:+ "_" +:+ pad2 (hour d) +:+ ":" +:+ pad2 (minute d)
    +:+ ":" +:+ pad2 (second d).

(** A line of log.txt: the time stamp, then " EmissionValue: ", then
    the reading. *)
Definition log_line (d : datetime) (v : emission) : string :=
  timestamp d +:+ " EmissionValue: " +:+ emission_str v +:+ newline.

(** The next [n] readings of the gun in world [w], and the screen and
    file lines that go with them. *)
Definition readings (w : World) (n : nat) : list emission :=
  (λ k, gun w (gun_reads w + k)%nat) <$> seq 0 n.

Definition shown (w : World) (n : nat) : list string :=
  shown_line <$> readings w n.

Definition lines (w : World) (n : nat) : list string :=
  (λ k, log_line (clock w (clock_reads w + k)%nat) (gun w (gun_reads w + k)%nat))
    <$> seq 0 n.

(** Whether [time.sleep(interval_time)] completes in world [w]: the
    global must be bound to an integer from 0 to [sleep_limit]. *)
Definition sleep_completes (w : World) : bool :=
  match globals w !! "interval_time" with
  | Some (PyInt z) => bool_decide (0 ≤ z ≤ sleep_limit)%Z
  | _ => false
  end.

(** What that statement raises when it does not complete, for each
    binding [g] of [interval_time]; [None] when it completes. *)
Definition sleep_raises (g : option value) : option exn :=
  match g with
  | None => Some (NameError "interval_time")
  | Some (PyInt z) =>
      if bool_decide (z < - time_t_max ∨ time_t_max < z) then
        Some (OverflowError "timestamp too large to convert to C _PyTime_t")
      else if bool_decide (z < 0) then
        Some (ValueError "sleep length must be non-negative")
      else if bool_decide (sleep_limit < z) then
        Some (OverflowError "sleep length is too large")
      else None
  | Some v =>
      Some (TypeError ("an integer is required (got type " +:+ type_name v +:+ ")"))
  end.

(** The class of the error that statement raises on every system:
    [NameError] when the name is unbound, [TypeError] when the value is
    not a number, [OverflowError] when the number is outside the range of
    C times, [ValueError] when it is negative within that range. [None]
    for the other bindings, where the statement completes or fails on
    some systems only. *)
Definition sleep_error (g : option value) : option string :=
  match g with
  | None => Some "NameError"
  | Some (PyInt z) =>
      if bool_decide (z < - time_t_max ∨ time_t_max < z) then Some "OverflowError"
      else if bool_decide (z < 0) then Some "ValueError"
      else None
  | Some _ => Some "TypeError"
  end.

Definition interval (w : World) : Z :=
  match globals w !! "interval_time" with
  | Some (PyInt z) => z
  | _ => 0
  end.

(** The world after [n] completed turns of the loop writing to [file]:
    the lines are in the buffer of the handle. *)
Definition logged (file : string) (n : nat) (w : World) : World :=
  mkWorld (globals w) (stdin w) (stdout w ++ shown w n)
          (files w) (opened w)
          (gun w) (gun_reads w + n) (clock w) (clock_reads w + n)
          (slept w ++ replicate n (interval w)) (pyplot w)
          (alter (λ chunks, chunks ++ lines w n) file (pending w)) (garbled w).

(** The turn up to its sleep: reading, printing and writing. *)
Definition written_turn (file : string) (w : World) : World :=
  with_pending
    (alter (λ chunks, chunks ++
              [strftime (clock w (clock_reads w)) "%Y/%m/%d_%H:%M:%S "
                 +:+ "EmissionValue: " +:+ emission_str (gun w (gun_reads w))
                 +:+ newline]) file)
    (with_clock_reads S
       (with_stdout
          (λ out, out ++ [("Emission Value: " +:+ emission_str (gun w (gun_reads w)))
                            +:+ newline])
          (with_gun_reads S w))).

(** The world when the first turn is cut short by its [time.sleep]. *)
Definition interrupted (file : string) (w : World) : World :=
  mkWorld (globals w) (stdin w) (stdout w ++ shown w 1)
          (files w) (opened w)
          (gun w) (gun_reads w + 1) (clock w) (clock_reads w + 1)
          (slept w) (pyplot w)
          (alter (λ chunks, chunks ++ lines w 1) file (pending w)) (garbled w).

(** The calls [emission_log] makes to matplotlib after [n] turns. *)
Definition figure (w : World) (n : nat) : list plt_call :=
  [ Plot (Z.of_nat <$> seq 0 n) (readings w n) "-"; Xlabel "Count";
    Ylabel "EmissionValue"; Title "EmissionCurrentValue"; Show ].

(** The world after a completed [emission_log] of [n] turns. *)
Definition finished (n : nat) (w : World) : World :=
  mkWorld (globals w) (stdin w) (stdout w ++ shown w n)
          (<["log.txt" := lines w n]> (files w)) (opened w)
          (gun w) (gun_reads w + n) (clock w) (clock_reads w + n)
          (slept w ++ replicate n (interval w)) (pyplot w ++ figure w n)
          (delete "log.txt" (pending w)) (delete "log.txt" (garbled w)).

(** The world right after [open("log.txt", "w")]. *)
Definition truncated (w : World) : World :=
  with_opened (cons "log.txt")
    (with_pending (insert "log.txt" [])
       (with_garbled (delete "log.txt")
          (with_files (insert "log.txt" []) w))).

(** The chunks handed to [file.write] for a file since it was last
    truncated: those on disk, then those still in the buffer of its
    handle. *)
Definition handed_over (w : World) (name : string) : list string :=
  default [] (files w !! name) ++ default [] (pending w !! name).

(** What a run from [w] to [w'] added to the screen. *)
Definition printed (w w' : World) : list string :=
  drop (length (stdout w)) (stdout w').

(** The statement of [emission_log]'s behaviour for a call with
    [count] turns: it returns [None]; the gun was read [count] more
    times; one line per reading went to the screen; log.txt holds
    exactly the [count] lines of this run; the file is closed again. *)
Definition logs_and_returns (count : Z) (sleeptime : value) (w : World) : Prop :=
  let r := emission_log (PyInt count) sleeptime w in
  let n := Z.to_nat count in
  r.1 = Return PyNone
  ∧ gun_reads r.2 = (gun_reads w + n)%nat
  ∧ stdout r.2 = stdout w ++ shown w n
  ∧ files r.2 !! "log.txt" = Some (lines w n)
  ∧ length (lines w n) = n
  ∧ opened r.2 = opened w.

(** Two worlds in which the gun and the clock will give the same
    readings, and [interval_time] is bound alike. *)
Definition same_readings (w1 w2 : World) : Prop :=
  (∀ k, gun w1 (gun_reads w1 + k)%nat = gun w2 (gun_reads w2 + k)%nat)
  ∧ (∀ k, clock w1 (clock_reads w1 + k)%nat = clock w2 (clock_reads w2 + k)%nat)
  ∧ globals w1 !! "interval_time" = globals w2 !! "interval_time".

End LoggerSpec.

(** ** Reading the log back: [open_log] *)

Module LogReader.
Import Logger.

(** The exceptions of the cell that reads a file: those of the other
    cells, the one [open(fileName, "r")] raises for a missing file, and
    the one the iteration raises on bytes that do not decode. *)
Inductive exn :=
| FileNotFoundError (name : string)
| UnicodeDecodeError (name : string)
| Propagated (e : Py.exn).

Definition LF : ascii := ascii_of_nat 10.
Definition CR : ascii := ascii_of_nat 13.

(** What a file opened in text mode shows of its contents: a carriage
    return, alone or before a line feed, reads as one line feed. *)
Fixpoint universal_newlines (s : string) : string :=
  match s with
  | "" => ""
  | String c rest =>
      if bool_decide (c = CR) then
        match rest with
        | String c' rest' =>
            if bool_decide (c' = LF) then String LF (universal_newlines rest')
            else String LF (universal_newlines rest)
        | "" => String LF ""
        end
      else String c (universal_newlines rest)
  end.

(** The rows [for row in file] yields for a text: each row runs up to
    and including its line feed; a last row may lack one. *)
Fixpoint rows_of (s : string) : list string :=
  match s with
  | "" => []
  | String c rest =>
      if bool_decide (c = LF) then String c "" :: rows_of rest
      else match rows_of rest with
           | [] => [String c ""]
           | row :: rows => String c row :: rows
           end
  end.

(** The text of a file, from the chunks written to it. *)
Definition contents (chunks : list string) : string :=
  foldr String.append "" chunks.

(** [open(fileName, "r")] followed by the iteration over the file: the
    rows it yields and whether a decoding error follows them, or
    [FileNotFoundError]. Only what is on disk is read: chunks still in
    the buffer of a handle open for writing are not seen. Nothing in the
    world changes. *)
Definition open_r (fileName : string) (w : World) : exn + (list string * bool) :=
  match garbled w !! fileName with
  | Some rows => inr (rows, true)
  | None =>
      match files w !! fileName with
      | Some chunks => inr (rows_of (universal_newlines (contents chunks)), false)
      | None => inl (FileNotFoundError fileName)
      end
  end.

(** [for a in l: body(a)] *)
Fixpoint for_each {W A} (l : list A) (body : A → run W unit) : run W unit :=
  match l with
  | [] => mret ()
  | a :: l' => body a;; for_each l' body
  end.

(** [open_log(fileName)]: every row is printed (so a row that ends in a
    line feed is followed by an empty line), then the file is closed; a
    decoding error ends the loop after the rows read before it. *)
Definition open_log (fileName : string) (w : World) : (exn + value) * World :=
  match open_r fileName w with
  | inl e => (inl e, w)
  | inr (rows, undecodable) =>
      match for_each rows print w with
      | (Return _, w') =>
          if undecodable then (inl (UnicodeDecodeError fileName), w')
          else (inr PyNone, w')
      | (Raise e, w') => (inl (Propagated e), w')
      end
  end.

(** No line feed and no carriage return in a text. *)
Fixpoint one_line (s : string) : bool :=
  match s with
  | "" => true
  | String c rest => negb (bool_decide (c = LF)) && negb (bool_decide (c = CR)) && one_line rest
  end.

End LogReader.

(** ** Worlds met along a run of the driver cell *)

Module DriverSpec.
Import Logger.

Definition prompt_count : string := "試行回数: ".
Definition prompt_interval : string := "Interval time: ".

(** The world once both answers are read and assigned: [count = n],
    [interval_time = z], [rest] still to be typed. *)
Definition answered (n z : Z) (rest : list string) (w : World) : World :=
  mkWorld (<["interval_time" := PyInt z]> (<["count" := PyInt n]> (globals w)))
          rest (stdout w ++ [prompt_count; prompt_interval]) (files w) (opened w)
          (gun w) (gun_reads w) (clock w) (clock_reads w) (slept w) (pyplot w)
          (pending w) (garbled w).

(** The world when the keyboard is at end of input after the first
    answer: [count = n] is assigned, both prompts were shown. *)
Definition half_answered (n : Z) (w : World) : World :=
  mkWorld (<["count" := PyInt n]> (globals w))
          [] (stdout w ++ [prompt_count; prompt_interval]) (files w) (opened w)
          (gun w) (gun_reads w) (clock w) (clock_reads w) (slept w) (pyplot w)
          (pending w) (garbled w).

End DriverSpec.

Import Logger LoggerSpec.

(** ** Examples *)

Example int_10 : Py.int "10" = Return 10.
Proof. reflexivity. Qed.

Example int_padded_negative : Py.int "  -7 " = Return (-7).
Proof. reflexivity. Qed.

Example int_alpha : Py.int "ten" = Raise (invalid_literal "ten").
Proof. reflexivity. Qed.

Example int_empty : Py.int "" = Raise (invalid_literal "").
Proof. reflexivity. Qed.

Example int_arabic_indic : Py.int "٣٤" = Return 34.
Proof. reflexivity. Qed.

Example int_fullwidth : Py.int "　-５　" = Return (-5).
Proof. reflexivity. Qed.

Example int_unit_separator :
  Py.int (String (ascii_of_nat 31) "5")
  = Raise (invalid_literal (String (ascii_of_nat 31) "5")).
Proof. reflexivity. Qed.

Example strftime_sample :
  strftime (Datetime 2017 5 12 16 6 49) "%Y/%m/%d_%H:%M:%S " = "2017/05/12_16:06:49 ".
Proof. vm_compute. reflexivity. Qed.

(** ** The run monad *)

Section RunFacts.
Context {W : Type}.

Lemma bind_return {A B} (c : run W A) (k : A → run W B) w a w' :
  c w = (Return a, w') → (c ≫= k) w = k a w'.
Proof. intros Hc. unfold mbind, run_bind. by rewrite Hc. Qed.

Lemma bind_raise {A B} (c : run W A) (k : A → run W B) w e w' :
  c w = (Raise e, w') → (c ≫= k) w = (Raise e, w').
Proof. intros Hc. unfold mbind, run_bind. by rewrite Hc. Qed.

Lemma bind_ext {A B} (c : run W A) (k1 k2 : A → run W B) w :
  (∀ a w', k1 a w' = k2 a w') → (c ≫= k1) w = (c ≫= k2) w.
Proof.
  intros Hk. unfold mbind, run_bind. destruct (c w) as [[a|e] w']; [apply Hk | done].
Qed.

Lemma for_from_S {S} i n (body : Z → S → run W S) s :
  for_from i (Datatypes.S n) body s = body i s ≫= for_from (i + 1) n body.
Proof. reflexivity. Qed.

End RunFacts.

(** ** [int] and [==] *)

Lemma int_returns_or_raises s :
  (∃ z, Py.int s = Return z) ∨ Py.int s = Raise (invalid_literal s).
Proof.
  unfold Py.int.
  destruct (match strip (ascii_text (String.list_ascii_of_string s)) with
            | "-"%char :: r => (-1, r)
            | "+"%char :: r => (1, r)
            | _ => (1, strip (ascii_text (String.list_ascii_of_string s)))
            end) as [sign ds].
  destruct ds as [|d ds]; [by right|].
  destruct (digits_value 0 (d :: ds)); [left; eauto | by right].
Qed.

Lemma eq_int_none z : Py.eq (PyInt z) PyNone = false.
Proof. reflexivity. Qed.

(** ** The loop of [emission_log] *)

Section LoggerLoop.

Lemma append_assoc (a b c : string) : (a +:+ b) +:+ c = a +:+ (b +:+ c).
Proof.
  induction a as [|x a IH]; [done|].
  change (String x ((a +:+ b) +:+ c) = String x (a +:+ (b +:+ c))).
  by rewrite IH.
Qed.

Lemma strftime_stamp d :
  strftime d "%Y/%m/%d_%H:%M:%S " = timestamp d +:+ " ".
Proof.
  unfold timestamp. rewrite !append_assoc. reflexivity.
Qed.

Lemma sleep_completes_interval w :
  sleep_completes w = true →
  globals w !! "interval_time" = Some (PyInt (interval w))
  ∧ 0 ≤ interval w ≤ sleep_limit.
Proof.
  unfold sleep_completes, interval.
  destruct (globals w !! "interval_time") as [[]|]; try done.
  intros Hz. by apply bool_decide_eq_true in Hz.
Qed.

Lemma sleep_limit_in_range z : 0 ≤ z ≤ sleep_limit → - time_t_max ≤ z ≤ time_t_max.
Proof. unfold sleep_limit, time_t_max. lia. Qed.

Lemma sleep_raises_completes w :
  sleep_raises (globals w !! "interval_time") = None ↔ sleep_completes w = true.
Proof.
  unfold sleep_raises, sleep_completes.
  destruct (globals w !! "interval_time") as [[]|]; try done.
  rewrite bool_decide_eq_true.
  repeat case_bool_decide; split; try done;
    unfold sleep_limit, time_t_max in *; lia.
Qed.

Lemma sleep_error_raises g class :
  sleep_error g = Some class → ∃ e, sleep_raises g = Some e ∧ class_of e = class.
Proof.
  unfold sleep_error, sleep_raises. destruct g as [[]|];
    try (intros [= <-]; by eexists).
  repeat case_bool_decide; try done; intros [= <-]; by eexists.
Qed.

(** [time.sleep(v)] ends as [sleep_raises] says. *)
Lemma time_sleep_raises v e w :
  sleep_raises (Some v) = Some e → time_sleep v w = (Raise e, w).
Proof.
  unfold sleep_raises, time_sleep. destruct v; try (by intros [= <-]).
  repeat case_bool_decide; (by intros [= <-]) || done.
Qed.

Lemma time_sleep_completes z w :
  0 ≤ z ≤ sleep_limit →
  time_sleep (PyInt z) w = (Return (), with_slept (λ l, l ++ [z]) w).
Proof.
  intros Hz. pose proof (sleep_limit_in_range z Hz). unfold time_sleep.
  rewrite bool_decide_eq_false_2 by lia.
  rewrite bool_decide_eq_false_2 by lia.
  by rewrite bool_decide_eq_false_2 by lia.
Qed.

Lemma globals_written_turn file w : globals (written_turn file w) = globals w.
Proof. reflexivity. Qed.

Lemma log_step_sleeps file i xy w :
  is_Some (pending w !! file) →
  log_step file i xy w
  = ((v ← load_global "interval_time";
      time_sleep v;;
      mret (xy.1 ++ [i], xy.2 ++ [gun w (gun_reads w)])) (written_turn file w)).
Proof.
  intros [chunks Hp]. unfold log_step.
  erewrite bind_return by reflexivity.
  erewrite bind_return by reflexivity.
  erewrite bind_return by reflexivity.
  erewrite bind_return; [reflexivity|].
  unfold file_write. cbn [pending with_clock_reads with_stdout with_gun_reads].
  by rewrite Hp.
Qed.

Lemma written_turn_logged file w :
  with_slept (λ l, l ++ [interval w]) (written_turn file w) = logged file 1 w.
Proof.
  unfold written_turn, logged, with_slept, with_pending, with_clock_reads,
    with_stdout, with_gun_reads, shown, lines, readings, log_line, shown_line.
  cbn [globals stdin stdout files opened gun gun_reads clock clock_reads
       slept pyplot pending garbled seq fmap list_fmap replicate].
  rewrite strftime_stamp.
  by rewrite !Nat.add_0_r, !Nat.add_1_r, !append_assoc.
Qed.

Lemma written_turn_interrupted file w : written_turn file w = interrupted file w.
Proof.
  unfold written_turn, interrupted, with_pending, with_clock_reads,
    with_stdout, with_gun_reads, shown, lines, readings, log_line, shown_line.
  cbn [globals stdin stdout files opened gun gun_reads clock clock_reads
       slept pyplot pending garbled seq fmap list_fmap].
  rewrite strftime_stamp.
  by rewrite !Nat.add_0_r, !Nat.add_1_r, !append_assoc.
Qed.

Lemma log_step_completes file i xy w :
  is_Some (pending w !! file) →
  sleep_completes w = true →
  log_step file i xy w
  = (Return (xy.1 ++ [i], xy.2 ++ [gun w (gun_reads w)]), logged file 1 w).
Proof.
  intros Hp [Hg Hz]%sleep_completes_interval.
  rewrite log_step_sleeps by done.
  erewrite bind_return.
  2:{ unfold load_global. by rewrite globals_written_turn, Hg. }
  erewrite bind_return by (by apply time_sleep_completes).
  by rewrite written_turn_logged.
Qed.

Lemma log_step_raises file i xy w e :
  is_Some (pending w !! file) →
  sleep_raises (globals w !! "interval_time") = Some e →
  log_step file i xy w = (Raise e, interrupted file w).
Proof.
  intros Hp He. rewrite log_step_sleeps by done.
  rewrite <- written_turn_interrupted.
  destruct (globals w !! "interval_time") as [v|] eqn:Hg.
  - erewrite bind_return.
    2:{ unfold load_global. by rewrite globals_written_turn, Hg. }
    by apply bind_raise, time_sleep_raises.
  - injection He as <-. apply bind_raise.
    unfold load_global. by rewrite globals_written_turn, Hg.
Qed.

Lemma fmap_seq_shift {A} (f : nat → A) g n :
  f g :: ((λ k, f (g + 1 + k)%nat) <$> seq 0 n)
  = (λ k, f (g + k)%nat) <$> seq 0 (S n).
Proof.
  cbn. rewrite Nat.add_0_r. f_equal.
  rewrite <- fmap_S_seq, <- list_fmap_compose.
  apply list_fmap_ext. intros _ k _. cbn. f_equal. lia.
Qed.

Lemma readings_S w file n :
  gun w (gun_reads w) :: readings (logged file 1 w) n = readings w (S n).
Proof. unfold readings. cbn [logged gun gun_reads]. apply fmap_seq_shift. Qed.

Lemma lines_S w file n :
  lines w 1 ++ lines (logged file 1 w) n = lines w (S n).
Proof.
  unfold lines. cbn [logged gun gun_reads clock clock_reads].
  cbn [seq fmap list_fmap app]. rewrite !Nat.add_0_r.
  rewrite <- fmap_S_seq, <- list_fmap_compose. f_equal.
  apply list_fmap_ext. intros _ k _. cbn.
  by rewrite !Nat.add_1_r, !Nat.add_succ_r.
Qed.

Lemma alter_twice {A} (f g : A → A) (m : gmap string A) i :
  alter f i (alter g i m) = alter (f ∘ g) i m.
Proof.
  apply map_eq. intros j. destruct (decide (i = j)) as [->|Hij].
  - rewrite !lookup_alter_eq. by destruct (m !! j).
  - by rewrite !lookup_alter_ne.
Qed.

Lemma logged_0 file w : logged file 0 w = w.
Proof.
  destruct w. unfold logged, shown, lines, readings. cbn.
  rewrite !app_nil_r, !Nat.add_0_r. f_equal.
  apply alter_id. intros chunks _. apply app_nil_r.
Qed.

Lemma logged_S file n w :
  logged file n (logged file 1 w) = logged file (S n) w.
Proof.
  unfold logged at 1 3.
  cbn [globals stdin stdout files opened gun gun_reads clock clock_reads
       slept pyplot pending garbled logged].
  f_equal.
  - unfold shown. rewrite <- (readings_S w file n).
    rewrite <- app_assoc. f_equal. unfold readings. cbn.
    by rewrite Nat.add_0_r.
  - lia.
  - lia.
  - rewrite <- app_assoc. reflexivity.
  - rewrite <- (lines_S w file n).
    rewrite alter_twice. apply alter_ext. intros chunks _.
    unfold compose. by rewrite <- app_assoc.
Qed.

Lemma pending_logged file n w :
  is_Some (pending w !! file) → is_Some (pending (logged file n w) !! file).
Proof.
  intros [chunks Hp]. unfold logged. cbn [pending].
  rewrite lookup_alter_eq, Hp. by eexists.
Qed.

Lemma loop_completes file n : ∀ i xy w,
  is_Some (pending w !! file) →
  sleep_completes w = true →
  for_from i n (log_step file) xy w
  = (Return (xy.1 ++ ((λ k, i + Z.of_nat k) <$> seq 0 n), xy.2 ++ readings w n),
     logged file n w).
Proof.
  induction n as [|n IH]; intros i [x y] w Hp Hw.
  - cbn. unfold mret, run_ret, readings. cbn.
    by rewrite !app_nil_r, logged_0.
  - rewrite for_from_S.
    erewrite bind_return by (by apply log_step_completes).
    rewrite IH by (done || by apply pending_logged).
    rewrite logged_S. cbn [fst snd].
    rewrite <- !app_assoc, <- (readings_S w file n).
    cbn [seq fmap list_fmap app].
    rewrite Z.add_0_r, <- fmap_S_seq, <- list_fmap_compose.
    do 5 f_equal.
    apply list_fmap_ext. intros _ k _. cbn. lia.
Qed.

Lemma loop_turns file n i xy w :
  is_Some (pending w !! file) →
  (n ≠ 0%nat → sleep_completes w = true) →
  for_from i n (log_step file) xy w
  = (Return (xy.1 ++ ((λ k, i + Z.of_nat k) <$> seq 0 n), xy.2 ++ readings w n),
     logged file n w).
Proof.
  destruct n as [|n]; intros Hp Hw; [|by apply loop_completes; [|apply Hw]].
  destruct xy as [x y]. cbn. unfold mret, run_ret, readings. cbn.
  by rewrite !app_nil_r, logged_0.
Qed.

Lemma loop_raises file n i xy w e :
  is_Some (pending w !! file) →
  sleep_raises (globals w !! "interval_time") = Some e →
  for_from i (S n) (log_step file) xy w = (Raise e, interrupted file w).
Proof.
  intros Hp He. rewrite for_from_S.
  by apply bind_raise, log_step_raises.
Qed.

End LoggerLoop.

(** ** [emission_log] as a whole *)

Section EmissionLog.

Lemma open_w_truncated w : open_w "log.txt" w = (Return "log.txt", truncated w).
Proof. reflexivity. Qed.

Lemma pending_truncated w : pending (truncated w) !! "log.txt" = Some [].
Proof.
  unfold truncated. cbn [pending with_opened with_pending]. apply lookup_insert_eq.
Qed.

Lemma file_close_flushes file chunks w :
  pending w !! file = Some chunks →
  file_close file w
  = (Return (),
     with_opened (remove_first file)
       (with_pending (delete file)
          (with_files (alter (λ text, text ++ chunks) file) w))).
Proof. intros Hp. unfold file_close. by rewrite Hp. Qed.

Lemma delete_alter_same {A} (f : A → A) (m : gmap string A) i :
  delete i (alter f i m) = delete i m.
Proof.
  apply map_eq. intros j. destruct (decide (i = j)) as [->|Hij].
  - by rewrite !lookup_delete_eq.
  - by rewrite !lookup_delete_ne, lookup_alter_ne.
Qed.

Lemma emission_log_completes c sleeptime w :
  (Z.to_nat c ≠ 0%nat → sleep_completes w = true) →
  emission_log (PyInt c) sleeptime w = (Return PyNone, finished (Z.to_nat c) w).
Proof.
  intros Hw. unfold emission_log.
  erewrite bind_return by apply open_w_truncated.
  erewrite bind_return by reflexivity.
  erewrite bind_return
    by (apply loop_turns; [rewrite pending_truncated; by eexists | exact Hw]).
  erewrite bind_return.
  2:{ apply (file_close_flushes _ (lines w (Z.to_nat c))).
      unfold logged. cbn [pending].
      by rewrite lookup_alter_eq, pending_truncated. }
  do 5 (erewrite bind_return by reflexivity).
  destruct w as [g sin sout fl op gn gr cl cr sl pp pd gb].
  cbv [mret run_ret finished figure logged truncated shown lines readings
       interval with_pyplot with_opened with_files with_pending with_garbled
       fst snd globals stdin stdout files opened gun gun_reads clock
       clock_reads slept pyplot pending garbled].
  f_equal. f_equal.
  - by rewrite alter_insert_eq.
  - by rewrite <- !app_assoc.
  - by rewrite delete_alter_same, delete_insert_eq.
Qed.

Lemma emission_log_raises c n sleeptime w e :
  Z.to_nat c = S n →
  sleep_raises (globals w !! "interval_time") = Some e →
  emission_log (PyInt c) sleeptime w = (Raise e, interrupted "log.txt" (truncated w)).
Proof.
  intros Hn He. unfold emission_log.
  erewrite bind_return by apply open_w_truncated.
  erewrite bind_return by reflexivity.
  rewrite Hn. apply bind_raise, loop_raises; [|exact He].
  rewrite pending_truncated. by eexists.
Qed.

Lemma emission_log_type_error count sleeptime w :
  (∀ c, count ≠ PyInt c) →
  emission_log count sleeptime w
  = (Raise (TypeError "object cannot be interpreted as an integer"), truncated w).
Proof.
  intros Hc. unfold emission_log.
  erewrite bind_return by apply open_w_truncated.
  apply bind_raise. destruct count; try reflexivity. by destruct (Hc z).
Qed.

Lemma same_readings_shown w1 w2 n :
  same_readings w1 w2 → shown w1 n = shown w2 n.
Proof.
  intros (Hgun & _ & _). unfold shown, readings. f_equal.
  apply list_fmap_ext. intros _ k _. apply Hgun.
Qed.

Lemma same_readings_lines w1 w2 n :
  same_readings w1 w2 → lines w1 n = lines w2 n.
Proof.
  intros (Hgun & Hclock & _). unfold lines.
  apply list_fmap_ext. intros _ k _. by rewrite Hgun, Hclock.
Qed.

Lemma printed_finished w n : printed w (finished n w) = shown w n.
Proof. unfold printed, finished. cbn. apply drop_app_length. Qed.

Lemma printed_interrupted w :
  printed w (interrupted "log.txt" (truncated w)) = shown w 1.
Proof. unfold printed, interrupted. cbn. apply drop_app_length. Qed.

Lemma printed_truncated w : printed w (truncated w) = [].
Proof. unfold printed, truncated. cbn. apply drop_all. Qed.

Lemma log_interrupted w :
  files (interrupted "log.txt" (truncated w)) !! "log.txt" = Some []
  ∧ pending (interrupted "log.txt" (truncated w)) !! "log.txt" = Some (lines w 1).
Proof.
  unfold interrupted, truncated.
  cbn [files pending with_opened with_files with_pending with_garbled].
  split; [apply lookup_insert_eq|].
  by rewrite lookup_alter_eq, lookup_insert_eq.
Qed.

End EmissionLog.

(** C1, as amended. For every [count >= 0] and every [sleeptime], in a
    world where the loop's [time.sleep(interval_time)] completes (the global
    [interval_time] is bound to an integer that [time.sleep] takes, from 0
    to [sleep_limit] seconds; not needed when [count = 0]),
    [emission_log(count, sleeptime)] reads the gun exactly
    [count] times, prints "Emission Value: <v>" once per reading, leaves in
    log.txt exactly the [count] lines of this run (whatever the file held
    before; no line when [count = 0]), the i-th line being a time stamp
    followed by " EmissionValue: " and the i-th reading, closes the file
    and returns [None]. *)
Theorem emission_log_logs_and_returns (count : Z) (sleeptime : value) (w : World) :
  0 ≤ count →
  (0 < count → sleep_completes w = true) →
  logs_and_returns count sleeptime w.
Proof.
  intros Hcount Hsleep. unfold logs_and_returns. cbv zeta.
  rewrite emission_log_completes by (intros Hn; apply Hsleep; lia).
  unfold finished. cbn [fst snd gun_reads stdout files opened].
  repeat split.
  - apply lookup_insert_eq.
  - unfold lines. by rewrite length_fmap, length_seq.
Qed.

Lemma emission_log_logs_and_returns_witness :
  let w := fresh [] {[ "interval_time" := PyInt 1 ]} in
  0 ≤ 2 ∧ sleep_completes w = true ∧ logs_and_returns 2 (PyModule "time") w.
Proof.
  cbv zeta. split; [lia|]. split; [reflexivity|].
  apply (emission_log_logs_and_returns 2); [lia | reflexivity].
Defined.

(** C1, as stated, fails: with the globals the driver cell leaves when the
    user answers 1 and -1, the call [emission_log(1, time)] raises
    [ValueError] at its first [time.sleep] instead of returning [None]. *)
Lemma emission_log_raises_on_negative_interval :
  ¬ logs_and_returns 1 (PyModule "time")
      (fresh [] {[ "count" := PyInt 1; "interval_time" := PyInt (-1) ]}).
Proof. intros [Hret _]. vm_compute in Hret. discriminate. Qed.

(** C5. The outcome, the lines printed and the contents of log.txt do not
    depend on [sleeptime]: two runs with the same [count], any two
    [sleeptime] values, the same readings of gun and clock and the same
    binding of the global [interval_time] (the value the loop sleeps for)
    agree on all three. *)
Theorem emission_log_ignores_sleeptime (count s1 s2 : value) (w1 w2 : World) :
  same_readings w1 w2 →
  let r1 := emission_log count s1 w1 in
  let r2 := emission_log count s2 w2 in
  r1.1 = r2.1
  ∧ printed w1 r1.2 = printed w2 r2.2
  ∧ files r1.2 !! "log.txt" = files r2.2 !! "log.txt".
Proof.
  intros Hsame. cbv zeta.
  assert (Hint : (∃ c, count = PyInt c) ∨ (∀ c, count ≠ PyInt c))
    by (destruct count; eauto).
  destruct Hint as [[c ->]|Hc].
  - destruct (sleep_raises (globals w1 !! "interval_time")) as [e|] eqn:He1;
      pose proof He1 as He2;
      rewrite (proj2 (proj2 Hsame)) in He2.
    + destruct (Z.to_nat c) as [|n] eqn:Hn.
      * rewrite !emission_log_completes by (rewrite Hn; done).
        cbn [fst snd]. rewrite Hn, !printed_finished. unfold finished. cbn [files].
        rewrite !lookup_insert_eq.
        by rewrite (same_readings_shown _ _ _ Hsame), (same_readings_lines _ _ _ Hsame).
      * rewrite (emission_log_raises c n s1 w1 e), (emission_log_raises c n s2 w2 e)
          by done.
        cbn [fst snd].
        rewrite !printed_interrupted, !(proj1 (log_interrupted _)).
        by rewrite (same_readings_shown _ _ _ Hsame).
    + apply sleep_raises_completes in He1, He2.
      rewrite !emission_log_completes by done.
      cbn [fst snd]. rewrite !printed_finished. unfold finished. cbn [files].
      rewrite !lookup_insert_eq.
      by rewrite (same_readings_shown _ _ _ Hsame), (same_readings_lines _ _ _ Hsame).
  - rewrite !emission_log_type_error by done.
    cbn [fst snd]. rewrite !printed_truncated.
    unfold truncated.
    cbn [files with_opened with_files with_pending with_garbled].
    by rewrite !lookup_insert_eq.
Qed.

Lemma emission_log_ignores_sleeptime_witness :
  let w1 := fresh [] {[ "interval_time" := PyInt 1 ]} in
  let w2 := with_stdout (λ _, ["earlier output"]) (with_gun_reads (λ _, 7%nat) w1) in
  let r1 := emission_log (PyInt 3) (PyInt 1) w1 in
  let r2 := emission_log (PyInt 3) (PyModule "time") w2 in
  same_readings w1 w2
  ∧ r1.1 = r2.1
  ∧ printed w1 r1.2 = printed w2 r2.2
  ∧ files r1.2 !! "log.txt" = files r2.2 !! "log.txt".
Proof.
  cbv zeta.
  assert (Hsame : same_readings
            (fresh [] {[ "interval_time" := PyInt 1 ]})
            (with_stdout (λ _, ["earlier output"])
               (with_gun_reads (λ _, 7%nat) (fresh [] {[ "interval_time" := PyInt 1 ]}))))
    by (repeat split; intros; reflexivity).
  split; [exact Hsame|].
  exact (emission_log_ignores_sleeptime (PyInt 3) (PyInt 1) (PyModule "time") _ _ Hsame).
Defined.

(** ** The driver cell *)

Section Driver.

Lemma int_of_value s w : int_of s w = (Py.int s, w).
Proof. reflexivity. Qed.

(** After [name = int(...)], the test [name == None] is false and the
    statement guarded by it is skipped. *)
Lemma fallback_skipped {A} name n (fallback : run World unit) (k : run World A) w :
  (store_global name (PyInt n);;
   v ← load_global name;
   (if Py.eq v PyNone then fallback else mret ());;
   k) w
  = (store_global name (PyInt n);; k) w.
Proof.
  unfold mbind, run_bind, store_global, load_global, modify. cbn.
  by rewrite lookup_insert_eq.
Qed.

Lemma driver_dead_branches w : driver w = driver_without_fallbacks w.
Proof.
  unfold driver, driver_without_fallbacks.
  apply bind_ext. intros line w1.
  apply bind_ext. intros n w2.
  rewrite fallback_skipped.
  apply bind_ext. intros [] w3.
  apply bind_ext. intros line' w4.
  apply bind_ext. intros n' w5.
  by rewrite fallback_skipped.
Qed.

Lemma driver_first_answer_rejected w line rest e :
  stdin w = line :: rest →
  Py.int line = Raise e →
  (driver w).1 = Raise e ∧ globals (driver w).2 = globals w.
Proof.
  intros Hin Hint. unfold driver, mbind, run_bind, input, int_of.
  cbn [stdin with_stdout]. rewrite Hin, Hint. done.
Qed.

Lemma driver_second_answer_rejected w line1 line2 rest n e :
  stdin w = line1 :: line2 :: rest →
  Py.int line1 = Return n →
  Py.int line2 = Raise e →
  (driver w).1 = Raise e
  ∧ globals (driver w).2 = <["count" := PyInt n]> (globals w).
Proof.
  intros Hin Hint1 Hint2. rewrite driver_dead_branches.
  unfold driver_without_fallbacks, mbind, run_bind, input, int_of,
    store_global, modify.
  cbn [stdin with_stdout]. rewrite Hin, Hint1. cbn. rewrite Hint2. done.
Qed.

End Driver.

(** C6. In the driver cell both [== None] fallbacks are unreachable:
    [int] of any typed line either returns an integer or raises
    [ValueError], an integer never equals [None], so the cell runs exactly
    as the cell without the two [if] statements does; an answer that is not
    a number makes the cell raise that [ValueError], with [count]
    (respectively [interval_time]) left unassigned rather than set to 1. *)
Theorem driver_fallbacks_unreachable :
  (∀ s, (∃ z, Py.int s = Return z) ∨ (∃ msg, Py.int s = Raise (ValueError msg)))
  ∧ (∀ z, Py.eq (PyInt z) PyNone = false)
  ∧ (∀ w, driver w = driver_without_fallbacks w)
  ∧ (∀ w line rest e,
       stdin w = line :: rest →
       Py.int line = Raise e →
       (driver w).1 = Raise e ∧ globals (driver w).2 = globals w)
  ∧ (∀ w line1 line2 rest n e,
       stdin w = line1 :: line2 :: rest →
       Py.int line1 = Return n →
       Py.int line2 = Raise e →
       (driver w).1 = Raise e
       ∧ globals (driver w).2 = <["count" := PyInt n]> (globals w)).
Proof.
  split; [|split; [|split; [|split]]].
  - intros s. destruct (int_returns_or_raises s) as [?|Hs]; [by left|].
    right. unfold invalid_literal in Hs. eauto.
  - exact eq_int_none.
  - exact driver_dead_branches.
  - exact driver_first_answer_rejected.
  - exact driver_second_answer_rejected.
Qed.

Lemma driver_fallbacks_unreachable_witness :
  let w := fresh ["ten"; "1"] ∅ in
  let w' := fresh ["10"; "soon"] ∅ in
  ((driver w).1 = Raise (invalid_literal "ten") ∧ globals (driver w).2 = globals w)
  ∧ ((driver w').1 = Raise (invalid_literal "soon")
     ∧ globals (driver w').2 = <["count" := PyInt 10]> (globals w')).
Proof.
  cbv zeta. split.
  - apply (proj1 (proj2 (proj2 (proj2 driver_fallbacks_unreachable)))
             (fresh ["ten"; "1"] ∅) "ten" ["1"]); reflexivity.
  - apply (proj2 (proj2 (proj2 (proj2 driver_fallbacks_unreachable)))
             (fresh ["10"; "soon"] ∅) "10" "soon" []); reflexivity.
Defined.

(** ** The magnification notebook *)

Section MagnificationLoop.
Import Magnification.
Context {S : Type} `{EOS3 S}.

Lemma stepped_up_S n (s : S) :
  stepped_up n (UpSelector s) = stepped_up (Datatypes.S n) s.
Proof.
  unfold stepped_up. symmetry. apply Nat.iter_succ_r.
Qed.

Lemma printed_rows_S (s : S) n :
  (repr (GetMagValue (UpSelector s)) +:+ newline) :: printed_rows (UpSelector s) n
  = printed_rows s (Datatypes.S n).
Proof.
  unfold printed_rows. cbn [seq fmap list_fmap]. f_equal.
  rewrite <- fmap_S_seq, <- list_fmap_compose.
  apply list_fmap_ext. intros _ k _. cbn [compose].
  by rewrite stepped_up_S.
Qed.

Lemma up_and_print_turn i (w : World S) :
  up_and_print i () w
  = (Return (),
     mkWorld (UpSelector (eos w))
             (calls w ++ [CallUpSelector; CallGetMagValue])
             (stdout w ++ [repr (GetMagValue (UpSelector (eos w))) +:+ newline])).
Proof.
  unfold up_and_print, mbind, run_bind, eos_UpSelector, eos_GetMagValue,
    print, modify. cbn. by rewrite <- app_assoc.
Qed.

Lemma loop_steps_up n : ∀ i (w : World S),
  for_from i n up_and_print () w
  = (Return (),
     mkWorld (stepped_up n (eos w)) (calls w ++ loop_calls n)
             (stdout w ++ printed_rows (eos w) n)).
Proof.
  induction n as [|n IH]; intros i w.
  - destruct w. cbn. unfold mret, run_ret, loop_calls, printed_rows. cbn.
    by rewrite !app_nil_r.
  - rewrite for_from_S.
    erewrite bind_return by apply up_and_print_turn.
    rewrite IH. cbn [eos calls stdout].
    rewrite stepped_up_S, <- !app_assoc.
    by rewrite <- printed_rows_S.
Qed.

Lemma up_calls_loop n :
  length (filter (λ c, c = CallUpSelector) (loop_calls n)) = n.
Proof.
  induction n as [|n IH]; [done|].
  change (loop_calls (Datatypes.S n))
    with (CallUpSelector :: CallGetMagValue :: loop_calls n).
  rewrite filter_cons_True by done. rewrite filter_cons_False by done.
  cbn [length]. by rewrite IH.
Qed.

Lemma test4_run (n : Z) (w : World S) :
  test4 (PyInt n) w
  = (Return PyNone,
     mkWorld (stepped_up (Z.to_nat n) (eos w))
             (calls w ++ loop_calls (Z.to_nat n))
             (stdout w ++ printed_rows (eos w) (Z.to_nat n))).
Proof.
  unfold test4.
  erewrite bind_return by reflexivity.
  erewrite bind_return by apply loop_steps_up.
  reflexivity.
Qed.

(** C3. For every [n >= 0], [test4(n)] returns after making exactly [n]
    calls of [eos.UpSelector()], each followed by a call of
    [eos.GetMagValue()] whose result is printed; the selector is then
    [n] steps up from where it started. For [n = 0] nothing is called,
    changed or printed. *)
Theorem test4_steps_up (n : Z) (w : World S) :
  0 ≤ n →
  let r := test4 (PyInt n) w in
  r.1 = Return PyNone
  ∧ up_calls r.2 = (up_calls w + Z.to_nat n)%nat
  ∧ calls r.2 = calls w ++ loop_calls (Z.to_nat n)
  ∧ stdout r.2 = stdout w ++ printed_rows (eos w) (Z.to_nat n)
  ∧ eos r.2 = stepped_up (Z.to_nat n) (eos w)
  ∧ (n = 0 → r.2 = w).
Proof.
  intros Hn. cbv zeta. rewrite test4_run. cbn [fst snd eos calls stdout].
  repeat split.
  - unfold up_calls. cbn [calls].
    by rewrite filter_app, length_app, up_calls_loop.
  - intros ->. destruct w. cbn. unfold loop_calls, printed_rows. cbn.
    by rewrite !app_nil_r.
Qed.

End MagnificationLoop.

Lemma test4_steps_up_witness :
  let w := Magnification.session Magnification.rows_from_0 1 in
  let r := Magnification.test4 (PyInt 10) w in
  0 ≤ 10
  ∧ r.1 = Return PyNone
  ∧ Magnification.up_calls r.2 = (Magnification.up_calls w + 10)%nat
  ∧ Magnification.stdout r.2
    = Magnification.stdout w
      ++ Magnification.printed_rows (Magnification.eos w) 10
  ∧ Magnification.eos r.2 = Magnification.stepped_up 10 (Magnification.eos w).
Proof.
  cbv zeta.
  assert (Hn : 0 ≤ 10) by lia.
  pose proof (test4_steps_up 10 (Magnification.session Magnification.rows_from_0 1) Hn)
    as Hrun.
  cbv zeta in Hrun.
  destruct Hrun as (Hret & Hups & _ & Hout & Heos & _).
  split; [exact Hn|]. split; [exact Hret|]. split; [exact Hups|].
  split; [exact Hout | exact Heos].
Defined.

(** The model of cell A3, run on the recorded rows from selector 1, prints
    the ten lines the notebook shows. *)
Example cell_A3_recorded :
  Magnification.stdout
    (Magnification.cell_A3 (Magnification.session Magnification.rows_from_0 1)).2
  = (λ m, Magnification.repr m +:+ newline) <$> drop 2 Magnification.rows_from_0.
Proof. vm_compute. reflexivity. Qed.

Example repr_300 :
  Magnification.repr (Magnification.Mag 300 "X" "X300") = "[300, 'X', 'X300']".
Proof. vm_compute. reflexivity. Qed.

(** [test4(9)], started on the first row the notebook shows for [test4],
    prints the nine rows that follow it. *)
Example test4_recorded :
  Magnification.stdout
    (Magnification.test4 (PyInt 9)
       (Magnification.session Magnification.rows_test4 0)).2
  = (λ m, Magnification.repr m +:+ newline) <$> drop 1 Magnification.rows_test4.
Proof. vm_compute. reflexivity. Qed.

(** In every row the notebook printed the label begins with the unit;
    in the STEM row that [help(TEM3)] shows it does not. *)
Fact recorded_rows_labels :
  forallb Magnification.label_begins_with_unit
    (Magnification.rows_from_0 ++ Magnification.rows_test4) = true
  ∧ Magnification.label_begins_with_unit Magnification.row_STEMAMAG = false.
Proof. split; vm_compute; reflexivity. Qed.

(** In both recorded runs every row shows a larger value than the row
    before it. *)
Fact recorded_rows_increasing :
  Magnification.increasing Magnification.rows_from_0 = true
  ∧ Magnification.increasing Magnification.rows_test4 = true.
Proof. split; vm_compute; reflexivity. Qed.


(** * Further properties of the notebooks' code *)

(** ** [emission_log]: edge behaviour, frame and composition *)

Section EmissionLogEdges.


Lemma interval_bound w z :
  globals w !! "interval_time" = Some (PyInt z) → interval w = z.
Proof. unfold interval. by intros ->. Qed.

Lemma sleep_completes_bound w z :
  globals w !! "interval_time" = Some (PyInt z) → 0 ≤ z ≤ sleep_limit →
  sleep_completes w = true.
Proof.
  unfold sleep_completes. intros -> Hz. by apply bool_decide_eq_true.
Qed.

Lemma handed_over_interrupted w :
  handed_over (interrupted "log.txt" (truncated w)) "log.txt" = lines w 1.
Proof.
  unfold handed_over. destruct (log_interrupted w) as [-> ->]. reflexivity.
Qed.

Lemma fmap_seq_from {A} (f : nat → A) n m :
  f <$> seq n m = (λ k, f (n + k)%nat) <$> seq 0 m.
Proof.
  rewrite <- (Nat.add_0_r n) at 1.
  by rewrite <- fmap_add_seq, <- list_fmap_compose.
Qed.

Lemma lines_app w n m :
  lines w (n + m)
  = lines w n
    ++ ((λ k, log_line (clock w (clock_reads w + n + k)%nat)
                       (gun w (gun_reads w + n + k)%nat)) <$> seq 0 m).
Proof.
  unfold lines. rewrite seq_app, fmap_app. f_equal.
  cbn [Nat.add]. rewrite fmap_seq_from.
  apply list_fmap_ext. intros _ k _. by rewrite !Nat.add_assoc.
Qed.

Lemma readings_app w n m :
  readings w (n + m)
  = readings w n ++ ((λ k, gun w (gun_reads w + n + k)%nat) <$> seq 0 m).
Proof.
  unfold readings. rewrite seq_app, fmap_app. f_equal.
  cbn [Nat.add]. rewrite fmap_seq_from.
  apply list_fmap_ext. intros _ k _. by rewrite !Nat.add_assoc.
Qed.

End EmissionLogEdges.


(** X2. A [count] that is not an integer makes [emission_log] raise
    [TypeError] at [range(count)], after the file was opened: log.txt has
    lost its contents and its handle stays open, while nothing was read,
    printed or plotted. *)
Theorem emission_log_bad_count (count sleeptime : value) (w : World) :
  (∀ c, count ≠ PyInt c) →
  let r := emission_log count sleeptime w in
  r.1 = Raise (TypeError "object cannot be interpreted as an integer")
  ∧ files r.2 !! "log.txt" = Some []
  ∧ opened r.2 = "log.txt" :: opened w
  ∧ stdout r.2 = stdout w
  ∧ gun_reads r.2 = gun_reads w
  ∧ pyplot r.2 = pyplot w.
Proof.
  intros Hc. cbv zeta. rewrite emission_log_type_error by done.
  unfold truncated.
  cbn [fst snd files opened stdout gun_reads pyplot with_opened with_files
       with_pending with_garbled].
  repeat split. apply lookup_insert_eq.
Qed.

Lemma emission_log_bad_count_witness :
  let w := with_files (insert "log.txt" ["old line"]) (fresh [] ∅) in
  let r := emission_log (PyStr "3") (PyInt 1) w in
  r.1 = Raise (TypeError "object cannot be interpreted as an integer")
  ∧ files r.2 !! "log.txt" = Some []
  ∧ opened r.2 = "log.txt" :: opened w
  ∧ stdout r.2 = stdout w
  ∧ gun_reads r.2 = gun_reads w
  ∧ pyplot r.2 = pyplot w.
Proof.
  cbv zeta. apply (emission_log_bad_count (PyStr "3")). intros c. discriminate.
Defined.

(** X3. When [time.sleep(interval_time)] fails whatever the system
    ([interval_time] is unbound, is not a number, lies outside the range of
    C times, or is negative) and [count >= 1], [emission_log] raises an
    exception of that statement's class ([NameError], [TypeError],
    [OverflowError], [ValueError]) at the end of the first turn: one
    reading was taken and printed, its line is the only one handed to the
    file since it was truncated, the file is left open, and nothing is
    slept or plotted. *)
Theorem emission_log_stops_at_first_sleep (c : Z) (sleeptime : value) (w : World)
    (class : string) :
  0 < c →
  sleep_error (globals w !! "interval_time") = Some class →
  let r := emission_log (PyInt c) sleeptime w in
  (∃ e, r.1 = Raise e ∧ class_of e = class)
  ∧ gun_reads r.2 = (gun_reads w + 1)%nat
  ∧ stdout r.2 = stdout w ++ shown w 1
  ∧ handed_over r.2 "log.txt" = lines w 1
  ∧ opened r.2 = "log.txt" :: opened w
  ∧ slept r.2 = slept w
  ∧ pyplot r.2 = pyplot w.
Proof.
  intros Hc Hclass. cbv zeta.
  destruct (sleep_error_raises _ _ Hclass) as (e & He & Hclass_of).
  destruct (Z.to_nat c) as [|n] eqn:Hn; [lia|].
  rewrite (emission_log_raises c n sleeptime w e) by done.
  cbn [fst snd]. rewrite handed_over_interrupted.
  unfold interrupted, truncated.
  cbn [gun_reads stdout opened slept pyplot with_opened with_files
       with_pending with_garbled].
  split; [by exists e|]. repeat split.
Qed.

Lemma emission_log_stops_at_first_sleep_witness :
  let w := fresh [] {[ "interval_time" := PyInt (-10000000000) ]} in
  let r := emission_log (PyInt 3) (PyInt 1) w in
  (∃ e, r.1 = Raise e ∧ class_of e = "OverflowError")
  ∧ gun_reads r.2 = (gun_reads w + 1)%nat
  ∧ stdout r.2 = stdout w ++ shown w 1
  ∧ handed_over r.2 "log.txt" = lines w 1
  ∧ opened r.2 = "log.txt" :: opened w
  ∧ slept r.2 = slept w
  ∧ pyplot r.2 = pyplot w.
Proof.
  cbv zeta.
  apply (emission_log_stops_at_first_sleep 3 _ _ "OverflowError");
    [lia | reflexivity].
Defined.

(** X4. A [count] of zero or less gives no turn at all, whatever
    [interval_time] is: [emission_log] returns [None], log.txt is left
    empty, nothing is read, printed or slept, the file is closed, and an
    empty figure is still drawn and shown. *)
Theorem emission_log_no_turn (c : Z) (sleeptime : value) (w : World) :
  c ≤ 0 →
  let r := emission_log (PyInt c) sleeptime w in
  r.1 = Return PyNone
  ∧ files r.2 !! "log.txt" = Some []
  ∧ stdout r.2 = stdout w
  ∧ gun_reads r.2 = gun_reads w
  ∧ slept r.2 = slept w
  ∧ opened r.2 = opened w
  ∧ pyplot r.2
    = pyplot w ++ [ Plot [] [] "-"; Xlabel "Count"; Ylabel "EmissionValue";
                    Title "EmissionCurrentValue"; Show ].
Proof.
  intros Hc. cbv zeta.
  assert (Hn : Z.to_nat c = 0%nat) by lia.
  rewrite emission_log_completes by (by rewrite Hn).
  rewrite Hn. unfold finished, figure, shown, lines, readings.
  cbn [fst snd files stdout gun_reads slept opened pyplot seq fmap list_fmap
       replicate].
  rewrite !app_nil_r, Nat.add_0_r, lookup_insert_eq. repeat split.
Qed.

Lemma emission_log_no_turn_witness :
  let w := fresh [] ∅ in
  let r := emission_log (PyInt (-2)) (PyInt 1) w in
  r.1 = Return PyNone
  ∧ files r.2 !! "log.txt" = Some []
  ∧ stdout r.2 = stdout w
  ∧ gun_reads r.2 = gun_reads w
  ∧ slept r.2 = slept w
  ∧ opened r.2 = opened w
  ∧ pyplot r.2
    = pyplot w ++ [ Plot [] [] "-"; Xlabel "Count"; Ylabel "EmissionValue";
                    Title "EmissionCurrentValue"; Show ].
Proof. cbv zeta. apply (emission_log_no_turn (-2)). lia. Defined.

(** X5. An [emission_log(count, ...)] with [interval_time] bound to an
    integer [z] that [time.sleep] takes ([0 <= z <= sleep_limit]) has
    slept [count] times for [z], has read the clock
    [count] times, and has made one plot of the readings against
    [0, ..., count-1] (two lists of the same length), labelled and
    shown. *)
Theorem emission_log_sleeps_and_plots (c z : Z) (sleeptime : value) (w : World) :
  0 ≤ c →
  globals w !! "interval_time" = Some (PyInt z) →
  0 ≤ z ≤ sleep_limit →
  let r := emission_log (PyInt c) sleeptime w in
  let n := Z.to_nat c in
  slept r.2 = slept w ++ replicate n z
  ∧ clock_reads r.2 = (clock_reads w + n)%nat
  ∧ pyplot r.2
    = pyplot w ++ [ Plot (Z.of_nat <$> seq 0 n) (readings w n) "-";
                    Xlabel "Count"; Ylabel "EmissionValue";
                    Title "EmissionCurrentValue"; Show ]
  ∧ length (Z.of_nat <$> seq 0 n) = length (readings w n).
Proof.
  intros Hc Hg Hz. cbv zeta.
  rewrite emission_log_completes
    by (intros _; by apply (sleep_completes_bound w z)).
  unfold finished, figure. cbn [fst snd slept clock_reads pyplot].
  rewrite (interval_bound w z) by done.
  repeat split. unfold readings. by rewrite !length_fmap.
Qed.

Lemma emission_log_sleeps_and_plots_witness :
  let w := fresh [] {[ "interval_time" := PyInt 5 ]} in
  let r := emission_log (PyInt 2) PyNone w in
  slept r.2 = slept w ++ replicate 2 5
  ∧ clock_reads r.2 = (clock_reads w + 2)%nat
  ∧ pyplot r.2
    = pyplot w ++ [ Plot (Z.of_nat <$> seq 0 2) (readings w 2) "-";
                    Xlabel "Count"; Ylabel "EmissionValue";
                    Title "EmissionCurrentValue"; Show ]
  ∧ length (Z.of_nat <$> seq 0 2) = length (readings w 2).
Proof.
  cbv zeta.
  apply (emission_log_sleeps_and_plots 2 5);
    [lia | reflexivity | unfold sleep_limit; lia].
Defined.

(** X6. Two calls in a row in a world where [time.sleep(interval_time)]
    completes ([interval_time] is an integer from 0 to [sleep_limit]): the
    second returns [None], the screen shows the lines of all
    [count1 + count2] readings, while log.txt holds only the lines of the
    second call, which are the last [count2] of the [count1 + count2]
    lines a single call would have written. *)
Theorem emission_log_twice (c1 c2 : Z) (s1 s2 : value) (w : World) :
  0 ≤ c1 → 0 ≤ c2 →
  sleep_completes w = true →
  let n1 := Z.to_nat c1 in
  let n2 := Z.to_nat c2 in
  let w1 := (emission_log (PyInt c1) s1 w).2 in
  let r := emission_log (PyInt c2) s2 w1 in
  r.1 = Return PyNone
  ∧ stdout r.2 = stdout w ++ shown w (n1 + n2)
  ∧ files r.2 !! "log.txt" = Some (drop n1 (lines w (n1 + n2)))
  ∧ gun_reads r.2 = (gun_reads w + (n1 + n2))%nat.
Proof.
  intros Hc1 Hc2 Hw. cbv zeta.
  rewrite (emission_log_completes c1) by done. cbn [snd].
  rewrite (emission_log_completes c2) by done. cbn [fst snd].
  unfold finished at 1 2 3.
  cbn [stdout files gun_reads]. rewrite lookup_insert_eq.
  split; [done|]. split; [|split].
  - unfold shown. rewrite readings_app, fmap_app, <- app_assoc. do 2 f_equal.
  - f_equal. rewrite lines_app.
    rewrite drop_app_length'; [done|].
    unfold lines. by rewrite length_fmap, length_seq.
  - unfold finished. cbn [gun_reads]. lia.
Qed.

Lemma emission_log_twice_witness :
  let w := fresh [] {[ "interval_time" := PyInt 0 ]} in
  let w1 := (emission_log (PyInt 2) PyNone w).2 in
  let r := emission_log (PyInt 1) PyNone w1 in
  r.1 = Return PyNone
  ∧ stdout r.2 = stdout w ++ shown w (2 + 1)
  ∧ files r.2 !! "log.txt" = Some (drop 2 (lines w (2 + 1)))
  ∧ gun_reads r.2 = (gun_reads w + (2 + 1))%nat.
Proof.
  cbv zeta. apply (emission_log_twice 2 1); [lia | lia | reflexivity].
Defined.

(** ** [open_log] *)

Section OpenLog.
Import LogReader.

Lemma for_each_print rows : ∀ w,
  for_each rows print w
  = (Return (), with_stdout (λ out, out ++ ((λ row, row +:+ newline) <$> rows)) w).
Proof.
  induction rows as [|row rows IH]; intros w.
  - destruct w. unfold with_stdout. cbn. by rewrite app_nil_r.
  - cbn [for_each]. erewrite bind_return by reflexivity.
    rewrite IH. f_equal. unfold with_stdout.
    cbn [globals stdin stdout files opened gun gun_reads clock clock_reads
         slept pyplot fmap list_fmap].
    by rewrite <- app_assoc.
Qed.

Lemma open_log_found fileName chunks w :
  garbled w !! fileName = None →
  files w !! fileName = Some chunks →
  open_log fileName w
  = (inr PyNone,
     with_stdout
       (λ out, out ++ ((λ row, row +:+ newline)
                         <$> rows_of (universal_newlines (contents chunks)))) w).
Proof.
  intros Hg Hf. unfold open_log, open_r. rewrite Hg, Hf. by rewrite for_each_print.
Qed.



Lemma contents_cons chunk chunks : contents (chunk :: chunks) = chunk +:+ contents chunks.
Proof. reflexivity. Qed.

Lemma append_cons c a b : String c a +:+ b = String c (a +:+ b).
Proof. reflexivity. Qed.

Lemma rows_of_contents s : contents (rows_of s) = s.
Proof.
  induction s as [|c rest IH]; [done|].
  cbn [rows_of]. case_bool_decide.
  - rewrite contents_cons, IH. reflexivity.
  - destruct (rows_of rest) as [|row rows].
    + cbn in IH. by rewrite <- IH.
    + rewrite contents_cons in *. rewrite append_cons. by rewrite IH.
Qed.

Lemma rows_of_nonempty s : Forall (λ row, row ≠ "") (rows_of s).
Proof.
  induction s as [|c rest IH]; [constructor|].
  cbn [rows_of]. case_bool_decide.
  - by constructor.
  - destruct (rows_of rest) as [|row rows]; [by repeat constructor|].
    inversion IH; subst. by constructor.
Qed.

Lemma one_line_app a b : one_line (a +:+ b) = one_line a && one_line b.
Proof.
  induction a as [|c a IH]; [done|].
  rewrite append_cons. cbn [one_line]. rewrite IH. by rewrite andb_assoc.
Qed.

Lemma one_line_digit k s : one_line (String (pretty_N_char k) s) = one_line s.
Proof. unfold pretty_N_char. by repeat case_match. Qed.

Lemma one_line_pretty_N_go x : ∀ s,
  one_line s = true → one_line (pretty_N_go x s) = true.
Proof.
  induction (N.lt_wf_0 x) as [x _ IH]. intros s Hs.
  assert (x = 0 ∨ 0 < x)%N as [->|Hx] by lia.
  - by rewrite pretty_N_go_0.
  - rewrite pretty_N_go_step by done. apply IH.
    + by apply N.div_lt.
    + by rewrite one_line_digit.
Qed.

Lemma one_line_pretty (n : nat) : one_line (pretty n) = true.
Proof.
  unfold pretty, pretty_nat, pretty, pretty_N.
  case_decide; [done|]. by apply one_line_pretty_N_go.
Qed.

Lemma one_line_pad2 n : one_line (pad2 n) = true.
Proof.
  unfold pad2. case_bool_decide; [|apply one_line_pretty].
  rewrite one_line_app, one_line_pretty. reflexivity.
Qed.

Lemma one_line_timestamp d : one_line (timestamp d) = true.
Proof.
  unfold timestamp.
  by rewrite !one_line_app, one_line_pretty, !one_line_pad2.
Qed.

Lemma universal_newlines_one_line a t :
  one_line a = true → universal_newlines (a +:+ t) = a +:+ universal_newlines t.
Proof.
  induction a as [|c a IH]; [done|].
  cbn [one_line]. intros [[Hlf Hcr]%andb_prop Ha]%andb_prop.
  rewrite !append_cons. cbn [universal_newlines].
  apply negb_true_iff in Hcr. rewrite Hcr. by rewrite IH.
Qed.

Lemma universal_newlines_newline t :
  universal_newlines (newline +:+ t) = newline +:+ universal_newlines t.
Proof. reflexivity. Qed.

Lemma rows_of_line a t :
  one_line a = true → rows_of (a +:+ newline +:+ t) = (a +:+ newline) :: rows_of t.
Proof.
  induction a as [|c a IH]; [done|].
  cbn [one_line]. intros [[Hlf Hcr]%andb_prop Ha]%andb_prop.
  rewrite !append_cons. cbn [rows_of].
  apply negb_true_iff in Hlf. rewrite Hlf. by rewrite IH.
Qed.

(** A list of complete lines is read back as it was written. *)
Lemma rows_of_written_lines (bodies : list string) :
  Forall (λ b, one_line b = true) bodies →
  rows_of (universal_newlines (contents ((λ b, b +:+ newline) <$> bodies)))
  = (λ b, b +:+ newline) <$> bodies.
Proof.
  induction 1 as [|b bodies Hb _ IH]; [done|].
  cbn [fmap list_fmap]. rewrite contents_cons, append_assoc.
  rewrite universal_newlines_one_line by done.
  rewrite universal_newlines_newline.
  rewrite rows_of_line by done. by rewrite IH.
Qed.

Lemma lines_bodies w n :
  lines w n
  = (λ b, b +:+ newline)
      <$> ((λ k, timestamp (clock w (clock_reads w + k)%nat) +:+ " EmissionValue: "
                   +:+ emission_str (gun w (gun_reads w + k)%nat)) <$> seq 0 n).
Proof.
  unfold lines. rewrite <- list_fmap_compose.
  apply list_fmap_ext. intros _ k _. unfold log_line. cbn [compose].
  by rewrite !append_assoc.
Qed.

End OpenLog.



(** X8. [open_log] prints the whole of a file that decodes, and nothing
    else: it prints one non-empty row at a time, each followed by the
    line feed [print] adds, and the rows put end to end are the text of
    the file on disk (as text mode shows it). *)
Theorem open_log_shows_file (fileName : string) (chunks : list string) (w : World) :
  garbled w !! fileName = None →
  files w !! fileName = Some chunks →
  let r := LogReader.open_log fileName w in
  ∃ rows,
    stdout r.2 = stdout w ++ ((λ row, row +:+ newline) <$> rows)
    ∧ LogReader.contents rows
      = LogReader.universal_newlines (LogReader.contents chunks)
    ∧ Forall (λ row, row ≠ "") rows.
Proof.
  intros Hg Hf. cbv zeta. rewrite (open_log_found fileName chunks) by done.
  exists (LogReader.rows_of (LogReader.universal_newlines (LogReader.contents chunks))).
  split; [done|]. split; [apply rows_of_contents | apply rows_of_nonempty].
Qed.

Lemma open_log_shows_file_witness :
  let w := with_files (insert "notes.txt" ["a"; "b" +:+ newline; "c"]) (fresh [] ∅) in
  let r := LogReader.open_log "notes.txt" w in
  ∃ rows,
    stdout r.2 = stdout w ++ ((λ row, row +:+ newline) <$> rows)
    ∧ LogReader.contents rows
      = LogReader.universal_newlines
          (LogReader.contents ["a"; "b" +:+ newline; "c"])
    ∧ Forall (λ row, row ≠ "") rows.
Proof.
  cbv zeta. apply (open_log_shows_file "notes.txt"); reflexivity.
Defined.

(** X9. Reading back what [emission_log] wrote: after a completed
    [emission_log(count, ...)] (its [time.sleep(interval_time)] completes:
    [interval_time] is an integer from 0 to [sleep_limit]) whose readings
    print on one line, [open_log("log.txt")] returns [None] and prints
    exactly the [count] lines of the log, in order, each followed by an
    empty line. *)
Theorem open_log_reads_back (c : Z) (sleeptime : value) (w : World) :
  0 ≤ c →
  (0 < c → sleep_completes w = true) →
  (∀ k, LogReader.one_line (emission_str (gun w k)) = true) →
  let w1 := (emission_log (PyInt c) sleeptime w).2 in
  let r := LogReader.open_log "log.txt" w1 in
  r.1 = inr PyNone
  ∧ stdout r.2 = stdout w1 ++ ((λ line, line +:+ newline) <$> lines w (Z.to_nat c)).
Proof.
  intros Hc Hw Hgun. cbv zeta.
  rewrite emission_log_completes by (intros Hn; apply Hw; lia). cbn [snd].
  rewrite (open_log_found "log.txt" (lines w (Z.to_nat c)))
    by (unfold finished; cbn [files garbled];
        apply lookup_delete_eq || apply lookup_insert_eq).
  split; [done|]. unfold with_stdout. cbn [snd stdout]. do 2 f_equal.
  rewrite lines_bodies. apply rows_of_written_lines.
  apply Forall_fmap, Forall_forall. intros k _. cbn.
  rewrite !one_line_app, one_line_timestamp, Hgun. reflexivity.
Qed.

Lemma open_log_reads_back_witness :
  let w := fresh [] {[ "interval_time" := PyInt 1 ]} in
  let w1 := (emission_log (PyInt 2) (PyModule "time") w).2 in
  let r := LogReader.open_log "log.txt" w1 in
  r.1 = inr PyNone
  ∧ stdout r.2 = stdout w1 ++ ((λ line, line +:+ newline) <$> lines w 2).
Proof.
  cbv zeta.
  apply (open_log_reads_back 2); [lia | reflexivity | intros k; reflexivity].
Defined.

(** ** The driver cell, end to end *)

Section DriverRuns.
Import DriverSpec.

Lemma input_eof prompt w :
  stdin w = [] →
  input prompt w = (Raise EOFError, with_stdout (λ out, out ++ [prompt]) w).
Proof. intros Hin. unfold input. cbn [stdin with_stdout]. by rewrite Hin. Qed.

Lemma int_of_return line n w : Py.int line = Return n → int_of line w = (Return n, w).
Proof. intros Hn. unfold int_of. by rewrite Hn. Qed.

(** With two answers that are numbers, the cell comes down to the call
    of [emission_log] in the world where both are assigned. *)
Lemma driver_answers w line1 line2 rest n z :
  stdin w = line1 :: line2 :: rest →
  Py.int line1 = Return n →
  Py.int line2 = Return z →
  driver w = emission_log (PyInt n) (PyModule "time") (answered n z rest w).
Proof.
  intros Hin Hn Hz. rewrite driver_dead_branches. unfold driver_without_fallbacks.
  destruct w as [g sin sout fl op gn gr cl cr sl pp pd gb].
  cbn [stdin] in Hin. subst sin.
  erewrite bind_return by reflexivity.
  erewrite bind_return by (by apply int_of_return).
  erewrite bind_return by reflexivity.
  erewrite bind_return by reflexivity.
  erewrite bind_return by (by apply int_of_return).
  erewrite bind_return by reflexivity.
  erewrite bind_return.
  2:{ unfold load_global.
      cbv [with_globals with_stdin with_stdout globals stdin stdout files
           opened gun gun_reads clock clock_reads slept pyplot pending garbled].
      rewrite lookup_insert_ne by done. rewrite lookup_insert_eq. reflexivity. }
  f_equal.
  cbv [answered with_globals with_stdin with_stdout prompt_count prompt_interval
       globals stdin stdout files opened gun gun_reads clock clock_reads
       slept pyplot pending garbled].
  by rewrite <- app_assoc.
Qed.

Lemma driver_one_answer w line n :
  stdin w = [line] →
  Py.int line = Return n →
  driver w = (Raise EOFError, half_answered n w).
Proof.
  intros Hin Hn. rewrite driver_dead_branches. unfold driver_without_fallbacks.
  destruct w as [g sin sout fl op gn gr cl cr sl pp pd gb].
  cbn [stdin] in Hin. subst sin.
  erewrite bind_return by reflexivity.
  erewrite bind_return by (by apply int_of_return).
  erewrite bind_return by reflexivity.
  erewrite bind_raise by reflexivity.
  f_equal.
  cbv [half_answered with_globals with_stdin with_stdout prompt_count
       prompt_interval globals stdin stdout files opened gun gun_reads clock
       clock_reads slept pyplot pending garbled].
  by rewrite <- app_assoc.
Qed.

End DriverRuns.

(** X10. The driver cell with two numeric answers [n] and [z] (when
    [n > 0], [z] is an interval [time.sleep] takes:
    [0 <= z <= sleep_limit]): it shows the two prompts, binds [count = n] and
    [interval_time = z], takes the two lines from the keyboard, then logs:
    [n] readings printed after the prompts, log.txt holding their [n]
    lines, [n] sleeps of [z], the file closed, and the cell ends
    normally. *)
Theorem driver_logs (w : World) (line1 line2 : string) (rest : list string) (n z : Z) :
  stdin w = line1 :: line2 :: rest →
  Py.int line1 = Return n →
  Py.int line2 = Return z →
  (0 < n → 0 ≤ z ≤ sleep_limit) →
  let r := driver w in
  let turns := Z.to_nat n in
  r.1 = Return PyNone
  ∧ globals r.2 !! "count" = Some (PyInt n)
  ∧ globals r.2 !! "interval_time" = Some (PyInt z)
  ∧ stdin r.2 = rest
  ∧ stdout r.2
    = stdout w ++ [DriverSpec.prompt_count; DriverSpec.prompt_interval]
        ++ shown w turns
  ∧ files r.2 !! "log.txt" = Some (lines w turns)
  ∧ slept r.2 = slept w ++ replicate turns z
  ∧ opened r.2 = opened w.
Proof.
  intros Hin Hn Hz Hsleep. cbv zeta.
  rewrite (driver_answers w line1 line2 rest n z) by done.
  rewrite emission_log_completes.
  2:{ intros Hturns. apply (sleep_completes_bound _ z).
      - unfold DriverSpec.answered. cbn [globals]. apply lookup_insert_eq.
      - apply Hsleep. lia. }
  unfold finished.
  cbn [fst snd globals stdin stdout files slept opened].
  rewrite (interval_bound _ z)
    by (unfold DriverSpec.answered; cbn [globals]; apply lookup_insert_eq).
  unfold DriverSpec.answered at 1 2 3 4 5 6.
  cbn [globals stdin stdout files slept opened].
  split; [done|].
  split; [by rewrite lookup_insert_ne, lookup_insert_eq|].
  split; [by rewrite lookup_insert_eq|].
  split; [done|].
  split; [by rewrite <- app_assoc|].
  split; [by rewrite lookup_insert_eq|].
  done.
Qed.

Lemma driver_logs_witness :
  let w := fresh [" 2"; "0"; "left over"] ∅ in
  let r := driver w in
  r.1 = Return PyNone
  ∧ globals r.2 !! "count" = Some (PyInt 2)
  ∧ globals r.2 !! "interval_time" = Some (PyInt 0)
  ∧ stdin r.2 = ["left over"]
  ∧ stdout r.2
    = stdout w ++ [DriverSpec.prompt_count; DriverSpec.prompt_interval]
        ++ shown w 2
  ∧ files r.2 !! "log.txt" = Some (lines w 2)
  ∧ slept r.2 = slept w ++ replicate 2 0
  ∧ opened r.2 = opened w.
Proof.
  cbv zeta.
  apply (driver_logs (fresh [" 2"; "0"; "left over"] ∅) " 2" "0" ["left over"] 2 0);
    [reflexivity | reflexivity | reflexivity | unfold sleep_limit; lia].
Defined.

(** X11. The driver cell at end of input: with nothing to read it raises
    [EOFError] after the first prompt and assigns nothing; with one numeric
    answer it raises [EOFError] after the second prompt, with [count]
    assigned, [interval_time] not assigned by the cell, and log.txt not
    touched. *)
Theorem driver_end_of_input (w : World) :
  (stdin w = [] →
     (driver w).1 = Raise EOFError
     ∧ globals (driver w).2 = globals w
     ∧ stdout (driver w).2 = stdout w ++ [DriverSpec.prompt_count]
     ∧ files (driver w).2 = files w)
  ∧ (∀ line n,
       stdin w = [line] →
       Py.int line = Return n →
       (driver w).1 = Raise EOFError
       ∧ globals (driver w).2 = <["count" := PyInt n]> (globals w)
       ∧ stdout (driver w).2
         = stdout w ++ [DriverSpec.prompt_count; DriverSpec.prompt_interval]
       ∧ files (driver w).2 = files w).
Proof.
  split.
  - intros Hin. unfold driver.
    erewrite bind_raise by (by apply input_eof). done.
  - intros line n Hin Hn. by rewrite (driver_one_answer w line n).
Qed.

Lemma driver_end_of_input_witness :
  let w := fresh [] ∅ in
  let w' := fresh ["10"] ∅ in
  ((driver w).1 = Raise EOFError
   ∧ globals (driver w).2 = globals w
   ∧ stdout (driver w).2 = stdout w ++ [DriverSpec.prompt_count]
   ∧ files (driver w).2 = files w)
  ∧ ((driver w').1 = Raise EOFError
     ∧ globals (driver w').2 = <["count" := PyInt 10]> (globals w')
     ∧ stdout (driver w').2
       = stdout w' ++ [DriverSpec.prompt_count; DriverSpec.prompt_interval]
     ∧ files (driver w').2 = files w').
Proof.
  cbv zeta. split.
  - apply (proj1 (driver_end_of_input (fresh [] ∅))). reflexivity.
  - apply (proj2 (driver_end_of_input (fresh ["10"] ∅)) "10" 10); reflexivity.
Defined.

(** X12. The driver cell accepts a negative interval: with a count
    [n >= 1] and an interval [z < 0] (within the range of C times,
    [z >= -time_t_max]) both names are assigned and the cell fails only
    inside [emission_log], with the [ValueError] of [time.sleep], after
    one reading was printed and its line handed to the file; log.txt is
    left open, that line being the only one handed to it. *)
Theorem driver_negative_interval (w : World) (line1 line2 : string)
    (rest : list string) (n z : Z) :
  stdin w = line1 :: line2 :: rest →
  Py.int line1 = Return n →
  Py.int line2 = Return z →
  0 < n → - time_t_max ≤ z < 0 →
  let r := driver w in
  r.1 = Raise (ValueError "sleep length must be non-negative")
  ∧ globals r.2 !! "count" = Some (PyInt n)
  ∧ globals r.2 !! "interval_time" = Some (PyInt z)
  ∧ handed_over r.2 "log.txt" = lines w 1
  ∧ opened r.2 = "log.txt" :: opened w
  ∧ stdout r.2
    = stdout w ++ [DriverSpec.prompt_count; DriverSpec.prompt_interval]
        ++ shown w 1.
Proof.
  intros Hin Hn Hz Hpos Hneg. cbv zeta.
  rewrite (driver_answers w line1 line2 rest n z) by done.
  destruct (Z.to_nat n) as [|turns] eqn:Hturns; [lia|].
  rewrite (emission_log_raises n turns _ _
             (ValueError "sleep length must be non-negative")); [|done|].
  2:{ unfold DriverSpec.answered. cbn [globals]. rewrite lookup_insert_eq.
      cbn [sleep_raises].
      rewrite bool_decide_eq_false_2 by lia.
      by rewrite bool_decide_eq_true_2 by lia. }
  cbn [fst snd]. rewrite handed_over_interrupted.
  unfold interrupted, truncated, DriverSpec.answered.
  cbn [globals stdout opened with_opened with_files with_pending with_garbled].
  split; [done|].
  split; [by rewrite lookup_insert_ne, lookup_insert_eq|].
  split; [by rewrite lookup_insert_eq|].
  split; [done|]. split; [done|]. by rewrite <- app_assoc.
Qed.

Lemma driver_negative_interval_witness :
  let w := fresh ["1"; "-1"] ∅ in
  let r := driver w in
  r.1 = Raise (ValueError "sleep length must be non-negative")
  ∧ globals r.2 !! "count" = Some (PyInt 1)
  ∧ globals r.2 !! "interval_time" = Some (PyInt (-1))
  ∧ handed_over r.2 "log.txt" = lines w 1
  ∧ opened r.2 = "log.txt" :: opened w
  ∧ stdout r.2
    = stdout w ++ [DriverSpec.prompt_count; DriverSpec.prompt_interval]
        ++ shown w 1.
Proof.
  cbv zeta.
  apply (driver_negative_interval (fresh ["1"; "-1"] ∅) "1" "-1" [] 1 (-1));
    [reflexivity | reflexivity | reflexivity | lia | unfold time_t_max; lia].
Defined.

(** ** [test4]: composition and edge behaviour *)

Section Test4Facts.
Import Magnification.
Context {S : Type} `{EOS3 S}.

Lemma stepped_up_add n m (s : S) :
  stepped_up m (stepped_up n s) = stepped_up (n + m) s.
Proof. unfold stepped_up. by rewrite Nat.add_comm, Nat.iter_add. Qed.

Lemma loop_calls_add n m : loop_calls n ++ loop_calls m = loop_calls (n + m).
Proof. unfold loop_calls. by rewrite replicate_add, join_app. Qed.

Lemma printed_rows_add (s : S) n m :
  printed_rows s n ++ printed_rows (stepped_up n s) m = printed_rows s (n + m).
Proof.
  unfold printed_rows. rewrite seq_app, fmap_app. f_equal.
  cbn [Nat.add]. rewrite (fmap_seq_from _ n m).
  apply list_fmap_ext. intros _ k _. cbn beta.
  by rewrite stepped_up_add, Nat.add_succ_r.
Qed.

(** X13. Two calls of [test4] in a row do what one call with the sum
    does: [test4(a); test4(b)] ends as [test4(a + b)] does, in the same
    world (same selector state, same calls in the same order, same lines
    on the screen). *)
Theorem test4_twice (a b : Z) (w : World S) :
  0 ≤ a → 0 ≤ b →
  (test4 (PyInt a);; test4 (PyInt b)) w = test4 (PyInt (a + b)) w.
Proof.
  intros Ha Hb.
  erewrite bind_return by apply test4_run.
  rewrite !test4_run. cbn [eos calls stdout].
  rewrite Z2Nat.inj_add by done.
  rewrite stepped_up_add, <- !app_assoc, loop_calls_add, printed_rows_add.
  reflexivity.
Qed.

(** X14. [test4] steps only for a positive integer: with zero or a
    negative integer it returns [None] and leaves the world as it was;
    with an argument that is not an integer it raises [TypeError], also
    without calling the microscope or printing. *)
Theorem test4_no_step (w : World S) :
  (∀ n, n ≤ 0 → test4 (PyInt n) w = (Return PyNone, w))
  ∧ (∀ v, (∀ n, v ≠ PyInt n) →
       test4 v w
       = (Raise (TypeError "object cannot be interpreted as an integer"), w)).
Proof.
  split.
  - intros n Hn. rewrite test4_run.
    replace (Z.to_nat n) with 0%nat by lia.
    destruct w. unfold loop_calls, printed_rows. cbn. by rewrite !app_nil_r.
  - intros v Hv. unfold test4. apply bind_raise.
    destruct v; try reflexivity. by destruct (Hv z).
Qed.

(** X15. After [test4(n)] with [n >= 1] the screen has exactly [n] more
    lines, and the last line shows the magnification the microscope is
    left at. *)
Theorem test4_last_line (n : Z) (w : World S) :
  1 ≤ n →
  let r := test4 (PyInt n) w in
  length (stdout r.2) = (length (stdout w) + Z.to_nat n)%nat
  ∧ last (stdout r.2) = Some (repr (GetMagValue (eos r.2)) +:+ newline).
Proof.
  intros Hn. cbv zeta. rewrite test4_run. cbn [snd eos stdout].
  split.
  - unfold printed_rows. by rewrite length_app, length_fmap, length_seq.
  - destruct (Z.to_nat n) as [|m] eqn:Hm; [lia|].
    unfold printed_rows. rewrite seq_S, fmap_app, app_assoc.
    cbn [fmap list_fmap Nat.add]. by rewrite last_snoc.
Qed.

End Test4Facts.

Lemma test4_twice_witness :
  let w := Magnification.session Magnification.rows_from_0 1 in
  (Magnification.test4 (PyInt 3);; Magnification.test4 (PyInt 4)) w
  = Magnification.test4 (PyInt (3 + 4)) w.
Proof. cbv zeta. apply test4_twice; lia. Defined.

Lemma test4_no_step_witness :
  let w := Magnification.session Magnification.rows_from_0 1 in
  Magnification.test4 (PyInt (-3)) w = (Return PyNone, w)
  ∧ Magnification.test4 PyNone w
    = (Raise (TypeError "object cannot be interpreted as an integer"), w).
Proof.
  cbv zeta. split.
  - apply (proj1 (test4_no_step _)). lia.
  - apply (proj2 (test4_no_step _)). intros n. discriminate.
Defined.

Lemma test4_last_line_witness :
  let w := Magnification.session Magnification.rows_from_0 1 in
  let r := Magnification.test4 (PyInt 10) w in
  length (Magnification.stdout r.2) = (length (Magnification.stdout w) + 10)%nat
  ∧ last (Magnification.stdout r.2)
    = Some (Magnification.repr (Magnification.GetMagValue (Magnification.eos r.2))
            +:+ newline).
Proof. cbv zeta. apply (test4_last_line 10). lia. Defined.

(** ** [int] reads back what [str] writes *)

Section IntOfStr.

Lemma digit_of_pretty_N_char k :
  (k < 10)%N → digit_of (pretty_N_char k) = Some (Z.of_N k).
Proof.
  intros Hk.
  assert (k = 0 ∨ k = 1 ∨ k = 2 ∨ k = 3 ∨ k = 4 ∨ k = 5 ∨ k = 6 ∨ k = 7
          ∨ k = 8 ∨ k = 9)%N as Hcases by lia.
  repeat (destruct Hcases as [->|Hcases]; [reflexivity|]).
  by subst k.
Qed.

Lemma digit_not_space c : is_Some (digit_of c) → is_space c = false.
Proof.
  unfold digit_of, is_space. cbv zeta. intros [d Hd].
  case_bool_decide; [|discriminate].
  apply bool_decide_eq_false. lia.
Qed.

(** The digits [pretty_N_go x] puts in front of [s], and their value. *)
Lemma pretty_N_go_digits x : ∀ s,
  ∃ ds,
    String.list_ascii_of_string (pretty_N_go x s)
    = ds ++ String.list_ascii_of_string s
    ∧ Forall (λ c, is_Some (digit_of c)) ds
    ∧ ((0 < x)%N → ds ≠ [])
    ∧ ∀ acc tail,
        digits_value acc (ds ++ tail)
        = digits_value (acc * 10 ^ Z.of_nat (length ds) + Z.of_N x) tail.
Proof.
  induction (N.lt_wf_0 x) as [x _ IH]. intros s.
  assert (x = 0 ∨ 0 < x)%N as [->|Hx] by lia.
  - exists []. rewrite pretty_N_go_0. split; [done|]. split; [done|].
    split; [lia|]. intros acc tail. cbn [app length]. f_equal. lia.
  - rewrite pretty_N_go_step by done.
    destruct (IH (x `div` 10)%N ltac:(by apply N.div_lt)
                 (String (pretty_N_char (x `mod` 10)) s))
      as (ds & Hlist & Hdigits & _ & Hvalue).
    assert (Hchar : digit_of (pretty_N_char (x `mod` 10)) = Some (Z.of_N (x `mod` 10)))
      by (apply digit_of_pretty_N_char, N.mod_lt; lia).
    exists (ds ++ [pretty_N_char (x `mod` 10)]).
    split; [|split; [|split]].
    + rewrite Hlist. cbn [String.list_ascii_of_string]. by rewrite <- app_assoc.
    + apply Forall_app. split; [done|]. repeat constructor. rewrite Hchar. eauto.
    + intros _. by destruct ds.
    + intros acc tail. rewrite <- app_assoc. cbn [app].
      rewrite Hvalue. cbn [digits_value]. rewrite Hchar. f_equal.
      rewrite length_app. cbn [length].
      rewrite Nat2Z.inj_add, Z.pow_add_r by lia.
      pose proof (N.div_mod x 10 ltac:(lia)) as Hdm.
      change (10 ^ Z.of_nat 1) with 10. lia.
Qed.

Lemma digit_is_ascii c : is_Some (digit_of c) → is_ascii c = true.
Proof.
  unfold digit_of, is_ascii, byte. cbv zeta. intros [d Hd].
  case_bool_decide; [|discriminate].
  apply bool_decide_eq_true. lia.
Qed.

Lemma ascii_text_ascii l : Forall (λ c, is_ascii c = true) l → ascii_text l = l.
Proof.
  intros Hl. unfold ascii_text.
  assert (forallb is_ascii l = true) as ->; [|done].
  induction Hl as [|c l Hc _ IH]; [done|]. cbn [forallb]. by rewrite Hc, IH.
Qed.

Lemma lstrip_unspaced l : Forall (λ c, is_space c = false) l → lstrip l = l.
Proof. intros Hl. destruct Hl as [|c l Hc _]; [done|]. cbn [lstrip]. by rewrite Hc. Qed.

Lemma strip_unspaced l : Forall (λ c, is_space c = false) l → strip l = l.
Proof.
  intros Hl. unfold strip. rewrite (lstrip_unspaced l) by done.
  rewrite lstrip_unspaced by (by apply Forall_reverse).
  apply reverse_involutive.
Qed.

(** A text that begins with a digit carries no sign. *)
Lemma unsigned_digits d ds :
  is_Some (digit_of d) →
  match d :: ds with
  | "-"%char :: r => (-1, r)
  | "+"%char :: r => (1, r)
  | _ => (1, d :: ds)
  end = (1, d :: ds).
Proof.
  intros [v Hv].
  destruct d as [[] [] [] [] [] [] [] []]; try reflexivity;
    vm_compute in Hv; discriminate.
Qed.

Lemma int_of_digits ds (x : N) :
  ds ≠ [] →
  Forall (λ c, is_Some (digit_of c)) ds →
  digits_value 0 ds = Some (Z.of_N x) →
  ∀ s, String.list_ascii_of_string s = ds → Py.int s = Return (Z.of_N x).
Proof.
  intros Hne Hdigits Hvalue s Hs. unfold Py.int. rewrite Hs.
  rewrite ascii_text_ascii
    by (eapply Forall_impl; [done|]; intros c; apply digit_is_ascii).
  rewrite strip_unspaced
    by (eapply Forall_impl; [done|]; intros c; apply digit_not_space).
  destruct ds as [|d ds]; [done|].
  inversion Hdigits; subst.
  rewrite unsigned_digits by done. rewrite Hvalue. f_equal. lia.
Qed.

Lemma int_of_minus_digits ds (x : N) :
  ds ≠ [] →
  Forall (λ c, is_Some (digit_of c)) ds →
  digits_value 0 ds = Some (Z.of_N x) →
  ∀ s, String.list_ascii_of_string s = "-"%char :: ds →
       Py.int s = Return (- Z.of_N x).
Proof.
  intros Hne Hdigits Hvalue s Hs. unfold Py.int. rewrite Hs.
  rewrite ascii_text_ascii.
  2:{ constructor; [reflexivity|].
      eapply Forall_impl; [done|]. intros c. apply digit_is_ascii. }
  rewrite strip_unspaced.
  2:{ constructor; [reflexivity|].
      eapply Forall_impl; [done|]. intros c. apply digit_not_space. }
  destruct ds as [|d ds]; [done|].
  rewrite Hvalue. f_equal; lia.
Qed.

Lemma pretty_positive_digits (p : positive) :
  ∃ ds, String.list_ascii_of_string (pretty p) = ds
        ∧ ds ≠ []
        ∧ Forall (λ c, is_Some (digit_of c)) ds
        ∧ digits_value 0 ds = Some (Z.pos p).
Proof.
  destruct (pretty_N_go_digits (N.pos p) "") as (ds & Hlist & Hdigits & Hne & Hvalue).
  exists ds. unfold pretty, pretty_positive, pretty, pretty_N.
  rewrite decide_False by done.
  rewrite Hlist. cbn [String.list_ascii_of_string]. rewrite app_nil_r.
  split; [done|]. split; [apply Hne; lia|]. split; [done|].
  specialize (Hvalue 0 []). rewrite app_nil_r in Hvalue. rewrite Hvalue.
  cbn [digits_value]. f_equal.
Qed.

End IntOfStr.

(** X16. [int] reads back what [str] writes: for every integer [z],
    [int(str(z))] returns [z]. So an answer typed to the driver cell as the
    decimal numeral of [z], negative or not, binds exactly [z]. *)
Theorem int_of_str_int (z : Z) : Py.int (str_int z) = Return z.
Proof.
  unfold str_int. destruct z as [|p|p].
  - reflexivity.
  - destruct (pretty_positive_digits p) as (ds & Hlist & Hne & Hdigits & Hvalue).
    by apply (int_of_digits ds (N.pos p)).
  - destruct (pretty_positive_digits p) as (ds & Hlist & Hne & Hdigits & Hvalue).
    apply (int_of_minus_digits ds (N.pos p)); try done.
    change (String.list_ascii_of_string (pretty (Z.neg p)))
      with ("-"%char :: String.list_ascii_of_string (pretty p)).
    by rewrite Hlist.
Qed.
